(** * Runnable resolution and launching in coc-wgsl-analyzer

    A shallow embedding of the runnable handling of [src/src/downloader.ts]:
    [fetchRunnable], [pickRunnable], [runSingle] and [debugSingle], with the
    [Runnable] type of [src/src/lsp_ext.ts]. *)

From Stdlib Require Import String Ascii List ZArith Bool Lia DecimalString.
Import ListNotations.
Set Warnings "-register-all".
Open Scope string_scope.

(** ** JavaScript values

    The values a line of the build tool's stdout can hold after
    [JSON.parse], plus [undefined].  An object is given by its own
    properties in insertion order; [JSON.parse] keeps the last of duplicate
    keys, so lookup takes the last binding. *)
Module Js.

Inductive jsval : Type :=
| JUndef
| JNull
| JBool (b : bool)
| JNum (z : Z)
| JStr (s : string)
| JArr (l : list jsval)
| JObj (fields : list (string * jsval)).

(** Outcome of evaluating a JavaScript expression that may throw a
    [TypeError] (property access on [null]/[undefined], calling a
    non-function). *)
Inductive js (A : Type) : Type :=
| Ok (a : A)
| TypeError.
Arguments Ok {A} a.
Arguments TypeError {A}.

Definition bind {A B} (m : js A) (k : A -> js B) : js B :=
  match m with Ok a => k a | TypeError => TypeError end.

Notation "x <- m ;; k" := (bind m (fun x => k))
  (at level 61, m at next level, right associativity).

Fixpoint lookup (k : string) (fs : list (string * jsval)) : jsval :=
  match fs with
  | [] => JUndef
  | (k', v) :: rest =>
      match lookup k rest with
      | JUndef => if String.eqb k k' then v else JUndef
      | w => w
      end
  end.

(** [v[k]] *)
Definition get (v : jsval) (k : string) : js jsval :=
  match v with
  | JUndef | JNull => TypeError
  | JObj fs => Ok (lookup k fs)
  | JArr l => Ok (if String.eqb k "length" then JNum (Z.of_nat (List.length l)) else JUndef)
  | JStr s => Ok (if String.eqb k "length" then JNum (Z.of_nat (String.length s)) else JUndef)
  | JBool _ | JNum _ => Ok JUndef
  end.

(** ToBoolean *)
Definition truthy (v : jsval) : bool :=
  match v with
  | JUndef | JNull => false
  | JBool b => b
  | JNum z => negb (Z.eqb z 0)
  | JStr s => negb (String.eqb s "")
  | JArr _ | JObj _ => true
  end.

(** [v === s] for a string [s] *)
Definition strict_eq_str (v : jsval) (s : string) : bool :=
  match v with JStr t => String.eqb t s | _ => false end.

(** [v.includes(s)]: [Array.prototype.includes] compares with [===],
    [String.prototype.includes] searches a substring; on any other value
    [includes] is not a function. *)
Definition includes (v : jsval) (s : string) : js bool :=
  match v with
  | JArr l => Ok (existsb (fun x => strict_eq_str x s) l)
  | JStr t => Ok (match String.index 0 s t with Some _ => true | None => false end)
  | _ => TypeError
  end.


(** [k] is an own property of an object with properties [fs]. *)
Definition has_own (k : string) (fs : list (string * jsval)) : bool :=
  existsb (fun kv => String.eqb (fst kv) k) fs.

(** Whether converting [v] to a string (a template literal, or
    [Array.prototype.join] on its elements) throws a [TypeError].  An
    object converts through [toString] and then [valueOf]; an own
    [toString] property of a parsed JSON value is never callable, and the
    inherited [valueOf] returns the object itself, so the conversion
    throws.  An array converts its elements other than [null] and
    [undefined]. *)
Fixpoint tostring_throws (v : jsval) : bool :=
  match v with
  | JObj fs => has_own "toString" fs
  | JArr l => existsb tostring_throws l
  | _ => false
  end.

End Js.
Import Js.

(** Errors thrown by [debugSingle]: a [TypeError] from the runtime or an
    [Error] with a message. *)
Inductive error : Type :=
| ETypeError
| EError (msg : string).

(** ** The debug-target filter (debugSingle, lines 483-531) *)
Module Filter.

Record filter : Type := mkFilter {
  expectedKind : option string;
  expectedName : option string
}.

(** The [switch (arg)] over the kind flags. *)
Definition flag_kind (arg : string) : option string :=
  if String.eqb arg "--bin" then Some "bin"
  else if String.eqb arg "--lib" then Some "lib"
  else if String.eqb arg "--test" then Some "test"
  else if String.eqb arg "--example" then Some "example"
  else if String.eqb arg "--bench" then Some "bench"
  else None.

(** First loop over [webbyArgs]: returns [(expectedKind, expectedName)]. *)
Fixpoint kind_loop (args : list string) (ek : option string)
  : option string * option string :=
  match args with
  | [] => (ek, None)
  | arg :: rest =>
      match ek with
      | None => kind_loop rest (flag_kind arg)
      | Some k => (ek, if String.eqb k "lib" then None else Some arg)
      end
  end.

(** Second loop: the argument after [--package]. *)
Fixpoint package_loop (args : list string) (foundPackageArgument : bool)
  : option string :=
  match args with
  | [] => None
  | arg :: rest =>
      if foundPackageArgument then Some arg
      else package_loop rest (String.eqb arg "--package")
  end.

Definition derive_filter (webbyArgs : list string) : filter :=
  let '(ek, en) := kind_loop webbyArgs None in
  match en with
  | None => mkFilter ek (package_loop webbyArgs false)
  | Some _ => mkFilter ek en
  end.

(** The rule as the specification words it: the first kind flag gives the
    kind, the token right after it the name (not for [lib]); otherwise the
    token after the first [--package] gives the name. *)
Fixpoint first_flag (args : list string) : option (string * list string) :=
  match args with
  | [] => None
  | a :: rest =>
      match flag_kind a with
      | Some k => Some (k, rest)
      | None => first_flag rest
      end
  end.

Fixpoint after_package (args : list string) : option string :=
  match args with
  | [] => None
  | a :: rest => if String.eqb a "--package" then hd_error rest else after_package rest
  end.

Definition spec_filter (webbyArgs : list string) : filter :=
  let kind := option_map fst (first_flag webbyArgs) in
  let name1 :=
    match first_flag webbyArgs with
    | Some (k, rest) => if String.eqb k "lib" then None else hd_error rest
    | None => None
    end in
  match name1 with
  | Some n => mkFilter kind (Some n)
  | None => mkFilter kind (after_package webbyArgs)
  end.

End Filter.
Import Filter.

(** ** The stdout scan of debugSingle (lines 556-597) *)
Module Scan.

(** A line of the build tool's stdout as the loop sees it: empty, one on
    which [JSON.parse] throws, or one [JSON.parse] turns into a value. *)
Inductive line : Type :=
| Blank
| NotJson
| Json (v : jsval).

Inductive step : Type :=
| Continue
| Break (executable : jsval).

(** [console.debug(`...${v}...`); continue;]: the template literal is
    evaluated before the call and throws when [v] does not convert. *)
Definition log_continue (v : jsval) : js step :=
  if tostring_throws v then TypeError else Ok Continue.

(** One iteration of [for await (const line of rl)]. *)
Definition body (f : filter) (l : line) : js step :=
  match l with
  | Blank => Ok Continue
  | NotJson => Ok Continue
  | Json webbyMessage =>
      (* [if (!webbyMessage)] only logs a falsy value, which converts, and
         falls through *)
      reason <- get webbyMessage "reason" ;;
      if negb (strict_eq_str reason "compiler-artifact") then
        (* [`Not artifact: ${webbyMessage['reason']}`] *)
        log_continue reason
      else
      kindOk <- (match expectedKind f with
                 | None => Ok true
                 | Some k =>
                     target <- get webbyMessage "target" ;;
                     kind <- get target "kind" ;;
                     includes kind k
                 end) ;;
      if negb kindOk then
        (* [`Wrong kind: ${webbyMessage['target']['kind']}, expected ${expectedKind}`] *)
        target <- get webbyMessage "target" ;;
        kind <- get target "kind" ;;
        log_continue kind
      else
      nameOk <- (match expectedName f with
                 | None => Ok true
                 | Some n =>
                     target <- get webbyMessage "target" ;;
                     name <- get target "name" ;;
                     Ok (strict_eq_str name n)
                 end) ;;
      if negb nameOk then
        (* [`Wrong name: ${webbyMessage['target']['name']}, expected ${expectedName}`] *)
        target <- get webbyMessage "target" ;;
        name <- get target "name" ;;
        log_continue name
      else
      executable <- get webbyMessage "executable" ;;
      if truthy executable then Ok (Break executable) else Ok Continue
  end.

(** Outcome of the loop; [Found] keeps the lines not consumed. *)
Inductive scan_result : Type :=
| Found (executable : jsval) (unread : list line)
| NotFound
| Thrown.

Fixpoint scan (f : filter) (ls : list line) : scan_result :=
  match ls with
  | [] => NotFound
  | l :: rest =>
      match body f l with
      | TypeError => Thrown
      | Ok Continue => scan f rest
      | Ok (Break e) => Found e rest
      end
  end.

(** [let executable = null; for ... ; if (!executable) throw ...] *)
Definition resolve (f : filter) (ls : list line) : jsval + error :=
  match scan f ls with
  | Thrown => inr ETypeError
  | Found e _ => if truthy e then inl e else inr (EError "Could not find executable")
  | NotFound =>
      if truthy JNull then inl JNull else inr (EError "Could not find executable")
  end.

(** The qualifying message as the specification words it, on values
    read as plain data: an artifact message whose [target.kind] list
    contains the expected kind, whose [target.name] is the expected name,
    and which carries a non-empty [executable]. *)
Definition field (m : jsval) (k : string) : jsval :=
  match m with JObj fs => lookup k fs | _ => JUndef end.

Definition kind_contains (kind : jsval) (k : string) : bool :=
  match kind with JArr l => existsb (fun x => strict_eq_str x k) l | _ => false end.

Definition qualifies (f : filter) (m : jsval) : bool :=
  strict_eq_str (field m "reason") "compiler-artifact"
  && match expectedKind f with
     | None => true
     | Some k => kind_contains (field (field m "target") "kind") k
     end
  && match expectedName f with
     | None => true
     | Some n => strict_eq_str (field (field m "target") "name") n
     end
  && truthy (field m "executable").

Definition line_qualifies (f : filter) (l : line) : bool :=
  match l with Json m => qualifies f m | _ => false end.

Definition is_obj (v : jsval) : bool := match v with JObj _ => true | _ => false end.
Definition is_arr (v : jsval) : bool := match v with JArr _ => true | _ => false end.
Definition is_primitive (v : jsval) : bool :=
  match v with JBool _ | JNum _ | JStr _ => true | _ => false end.

(** Messages of the build tool's schema: objects, whose artifact messages
    carry a [target] object with a [kind] array; the [reason], and the
    [kind] and [name] of an artifact's target, hold no object with an own
    [toString] property, so that the debug log lines convert them. *)
Definition wf_message (m : jsval) : Prop :=
  is_obj m = true /\
  tostring_throws (field m "reason") = false /\
  (strict_eq_str (field m "reason") "compiler-artifact" = true ->
   is_obj (field m "target") = true /\ is_arr (field (field m "target") "kind") = true /\
   tostring_throws (field (field m "target") "kind") = false /\
   tostring_throws (field (field m "target") "name") = false).

Definition wf_line (l : line) : Prop :=
  match l with Json m => wf_message m | _ => True end.

Definition not_qualifying (f : filter) (l : line) : Prop := line_qualifies f l = false.

End Scan.
Import Scan.

(** ** Runnables (lsp_ext.ts) and their command lines (downloader.ts) *)

Module Webby.
(** [WebbyRunnableArgs]; [environment] as an association list. *)
Record t : Type := mkArgs {
  workspaceRoot : option string;
  webbyArgs : list string;
  executableArgs : list string;
  overrideWebby : option string;
  environment : option (list (string * string));
  cwd : string
}.
End Webby.

Module Shell.
(** [ShellRunnableArgs] *)
Record t : Type := mkArgs {
  kind : string;
  program : string;
  args : list string;
  environment : option (list (string * string));
  cwd : string
}.
End Shell.

Module Runnable.

(** The two payloads, selected by [kind]. *)
Inductive payload : Type :=
| RWebby (a : Webby.t)
| RShell (a : Shell.t).

(** [Runnable] ([location] is never read by this code and is left out). *)
Record runnable : Type := mkRunnable {
  label : string;
  args : payload
}.

Definition kind (r : runnable) : string :=
  match args r with RWebby _ => "webby" | RShell _ => "shell" end.

(** [runnable.args['executableArgs'] = ea] on a webby runnable. *)
Definition set_executableArgs (r : runnable) (ea : list string) : runnable :=
  match args r with
  | RWebby a =>
      mkRunnable (label r)
        (RWebby (Webby.mkArgs (Webby.workspaceRoot a) (Webby.webbyArgs a) ea
                   (Webby.overrideWebby a) (Webby.environment a) (Webby.cwd a)))
  | RShell _ => r
  end.

(** The token construction shared by [runSingle], [debugSingle] and
    [echoRunCommandLine]; it returns the tokens and the runnable object as
    left by the assignment to [executableArgs[0]]. *)
Definition build_args (r : runnable) : list string * runnable :=
  match args r with
  | RWebby a =>
      let args := Webby.webbyArgs a in
      match Webby.executableArgs a with
      | [] => (args, r)
      | x :: xs =>
          let ea := ("'" ++ x ++ "'")%string :: xs in
          (args ++ "--" :: ea, set_executableArgs r ea)
      end
  | RShell a => (Shell.args a, r)
  end%list.

(** [args.join(' ')] *)
Definition join (xs : list string) : string := String.concat " " xs.

(** [runSingle]: the command line sent to the terminal, and the runnable
    afterwards. *)
Definition run_command (r : runnable) : string * runnable :=
  let '(args, r') := build_args r in
  (kind r ++ " " ++ join args, r').

(** [debugSingle], step 1: the argument list of the build process. *)
Definition debug_args (r : runnable) : list string * runnable :=
  let '(args, r') := build_args r in
  let args1 :=
    match hd_error args with
    | Some a0 => if String.eqb a0 "test" then (args ++ ["--no-run"])%list else args
    | None => args
    end in
  let args2 :=
    match args1 with
    | a0 :: rest => if String.eqb a0 "run" then "build" :: rest else args1
    | [] => args1
    end in
  ((args2 ++ ["--message-format=json"])%list, r').



End Runnable.
Import Runnable.

(** ** Launching the debugger (debugSingle, lines 599-628) *)
Module Launch.

(** The part of [ctx.config] this code reads. *)
Record config : Type := mkConfig {
  debug_runtime : string;
  vimspector_name : string;
  nvimdap_template : option string;
  terminal_startinsert : bool
}.

(** Effects on the editor and the system, in order; the settings of
    [nvim.call] are the values handed to Neovim. *)
Inductive event : Type :=
| Spawn (program : string) (args : list string)
| NvimCommand (command : string)
| NvimCall (fn : string) (settings : list (string * jsval))
| NvimLua (code : string).

Definition dq : string := String (Ascii.ascii_of_nat 34) EmptyString.

(** [s.split(' ')] *)
Fixpoint split_space_acc (s cur : string) : list string :=
  match s with
  | EmptyString => [cur]
  | String c rest =>
      if Ascii.eqb c " "%char then cur :: split_space_acc rest ""
      else split_space_acc rest (cur ++ String c EmptyString)
  end.
Definition split_space (s : string) : list string := split_space_acc s "".

(** GetSubstitution for a string pattern (no captures): [$$] gives [$],
    [$&] the match, [$`] the text before it, [$'] the text after it; any
    other [$] is kept as it is. *)
Fixpoint get_substitution (matched before after rep : string) : string :=
  match rep with
  | EmptyString => EmptyString
  | String c rest =>
      if Ascii.eqb c "$"%char then
        match rest with
        | String d rest' =>
            if Ascii.eqb d "$"%char then String "$"%char (get_substitution matched before after rest')
            else if Ascii.eqb d "&"%char then matched ++ get_substitution matched before after rest'
            else if Ascii.eqb d "`"%char then before ++ get_substitution matched before after rest'
            else if Ascii.eqb d "'"%char then after ++ get_substitution matched before after rest'
            else String c (get_substitution matched before after rest)
        | EmptyString => String c EmptyString
        end
      else String c (get_substitution matched before after rest)
  end.

(** [s.replace(pat, rep)] for a string pattern: the first occurrence only. *)
Definition replace_first (pat rep s : string) : string :=
  match String.index 0 pat s with
  | Some n =>
      let before := substring 0 n s in
      let after := substring (n + String.length pat) (String.length s - n - String.length pat) s in
      before ++ get_substitution pat before after rep ++ after
  | None => s
  end.

Section Conversion.

(** [Number::toString], the shortest decimal that reads back as the
    same double, is not modelled: the text of a number is a parameter. *)
Variable number_to_string : Z -> string.


(** The runtime dispatch: the events it causes and the error it throws.
    [executable] is the resolved value and [exe] its conversion
    [`${executable}`] (already evaluated without throwing by the
    [console.info] before the dispatch). *)
Definition launch (c : config) (executable : jsval) (exe executableArgs : string)
  : list event * option error :=
  let runtime := debug_runtime c in
  if String.eqb runtime "termdebug" then
    ([NvimCommand ("TermdebugCommand " ++ exe ++ " " ++ executableArgs)], None)
  else if String.eqb runtime "vimspector" then
    ([NvimCall "vimspector#LaunchWithSettings"
       [("configuration", JStr (vimspector_name c)); ("Executable", executable);
        ("Args", JStr executableArgs)]], None)
  else if String.eqb runtime "nvim-dap" then
    let args :=
      String.concat ","
        (map (fun s => dq ++ s ++ dq)
           (List.filter (fun s => negb (String.eqb s "")) (split_space executableArgs))) in
    let configuration :=
      option_map
        (fun t => replace_first "$args" ("{" ++ args ++ "}")
                    (replace_first "$exe" (dq ++ exe ++ dq) t))
        (nvimdap_template c) in
    ([NvimLua ("require(" ++ dq ++ "dap" ++ dq ++ ").run("
               ++ match configuration with Some s => s | None => "undefined" end
               ++ ")")], None)
  else ([], Some (EError ("Invalid debug runtime: " ++ runtime))).


End Conversion.

End Launch.
Import Launch.

(** ** The run-terminal slot (runSingle, lines 650-663)

    [let terminal: Terminal | undefined] is a module-level slot.  A call of
    [runSingle] runs in two synchronous segments separated by
    [await window.createTerminal(opt)]: the first disposes the terminal in
    the slot and empties it, the second stores the new terminal and sends
    it the command line.  Calls of [runSingle] are asynchronous, so the
    segments of several calls can interleave; a schedule says which pending
    call advances next. *)
Module TermSlot.

Inductive term_event : Type :=
| Dispose (t : nat)
| Create (t : nat) (name cwd : string)
| SendText (t : nat) (text : string).

Record world : Type := mkWorld {
  slot : option nat;        (* [terminal] *)
  live : list nat;          (* terminals created and not disposed *)
  next : nat;               (* identity of the next terminal *)
  events : list term_event
}.

Definition init_world : world := mkWorld None [] 0 [].

(** [if (terminal) { terminal.dispose(); terminal = undefined; }] *)
Definition dispose_slot (w : world) : world :=
  match slot w with
  | Some t => mkWorld None (remove Nat.eq_dec t (live w)) (next w) (events w ++ [Dispose t])
  | None => w
  end.

(** [terminal = await window.createTerminal(opt); terminal.sendText(cmd)] *)
Definition create_and_store (w : world) (name cwd cmd : string) : world :=
  let t := next w in
  mkWorld (Some t) (live w ++ [t]) (S t) (events w ++ [Create t name cwd; SendText t cmd]).

(** A pending call of [runSingle]. *)
Inductive thread : Type :=
| Ready (name cwd cmd : string)
| Waiting (name cwd cmd : string)
| Finished.

Definition advance (w : world) (th : thread) : world * thread :=
  match th with
  | Ready name cwd cmd => (dispose_slot w, Waiting name cwd cmd)
  | Waiting name cwd cmd => (create_and_store w name cwd cmd, Finished)
  | Finished => (w, Finished)
  end.

Fixpoint replace_nth {A} (l : list A) (i : nat) (x : A) : list A :=
  match l, i with
  | [], _ => []
  | _ :: rest, O => x :: rest
  | y :: rest, S i' => y :: replace_nth rest i' x
  end.

Fixpoint run_schedule (w : world) (ths : list thread) (sched : list nat)
  : world * list thread :=
  match sched with
  | [] => (w, ths)
  | i :: rest =>
      match nth_error ths i with
      | Some th =>
          let '(w', th') := advance w th in
          run_schedule w' (replace_nth ths i th') rest
      | None => run_schedule w ths rest
      end
  end.

(** [runSingle] on a runnable, completed before any other call starts. *)
Definition terminal_options (r : runnable) : string * string :=
  (label r, match args r with RWebby a => Webby.cwd a | RShell a => Shell.cwd a end).

Definition run_single_seq (w : world) (r : runnable) : world :=
  let '(name, cwd) := terminal_options r in
  create_and_store (dispose_slot w) name cwd (fst (run_command r)).

Definition thread_of (r : runnable) : thread :=
  let '(name, cwd) := terminal_options r in Ready name cwd (fst (run_command r)).

(** The slot invariant: the live terminals are exactly the one in the slot. *)
Definition slot_inv (w : world) : Prop :=
  live w = match slot w with Some t => [t] | None => [] end /\
  (forall t, slot w = Some t -> t < next w).

End TermSlot.
Import TermSlot.

(** ** Fetching and picking a runnable (lines 386-413)

    The editor is given by the answers it gives: whether the active
    document is a WGSL document, the runnables the server returns, and the
    index [window.showQuickpick] resolves to ([-1] when the user cancels). *)
Module Pick.

Record editor : Type := mkEditor {
  doc_is_wgsl : bool;
  server_runnables : list runnable;
  picked : Z
}.

Inductive ui_event : Type :=
| ShowInformation (msg : string)
| SendRunnablesRequest
| ShowQuickpick (labels : list string).

(** [fetchRunnable] *)
Definition fetch_runnable (e : editor) : list ui_event * list runnable :=
  if negb (doc_is_wgsl e) then ([], [])
  else ([ShowInformation "Fetching runnable..."; SendRunnablesRequest], server_runnables e).

(** [pickRunnable]; [items[idx].runnable] throws when [idx] is outside
    [items]. *)
Definition pick_runnable (e : editor) : list ui_event * js (option runnable) :=
  let '(evs, runnables) := fetch_runnable e in
  match runnables with
  | [] => (evs, Ok None)
  | _ =>
      let items := runnables in
      let evs' := (evs ++ [ShowQuickpick (map label items)])%list in
      let idx := picked e in
      if Z.eqb idx (-1) then (evs', Ok None)
      else
        match (if Z.ltb idx 0 then None else nth_error items (Z.to_nat idx)) with
        | Some r => (evs', Ok (Some r))
        | None => (evs', TypeError)
        end
  end.

End Pick.
Import Pick.

(** ** Platform detection and release lookup (downloader.ts, lines 69-128) *)
Module Release.

(** The host as the code queries it: [process.arch], [process.platform]
    and the stderr of [ldd --version] ([None] when it is [null]). *)
Record host : Type := mkHost {
  arch : string;
  platform : string;
  ldd_stderr : option string
}.

Inductive proc_event : Type :=
| SpawnSync (program : string) (args : list string)
| Fetch (url : string).

(** [s.indexOf(t) >= 0] *)
Definition contains (s t : string) : bool :=
  match String.index 0 t s with Some _ => true | None => false end.

(** [s.endsWith(t)] *)
Definition ends_with (s t : string) : bool :=
  let n := String.length s in
  let m := String.length t in
  (m <=? n)%nat && String.eqb (substring (n - m) m s) t.

(** [isMusl()] *)
Definition isMusl (h : host) : bool * list proc_event :=
  (match ldd_stderr h with Some e => contains e "musl libc" | None => false end,
   [SpawnSync "ldd" ["--version"]]).

Definition platforms : list (string * string) :=
  [("ia32 win32", "x86_64-pc-windows-msvc");
   ("x64 win32", "x86_64-pc-windows-msvc");
   ("x64 linux", "x86_64-unknown-linux-gnu");
   ("x64 darwin", "x86_64-apple-darwin");
   ("arm linux", "arm-unknown-linux-gnueabihf");
   ("arm64 win32", "aarch64-pc-windows-msvc");
   ("arm64 linux", "aarch64-unknown-linux-gnu");
   ("arm64 darwin", "aarch64-apple-darwin")].

Fixpoint assoc (k : string) (l : list (string * string)) : option string :=
  match l with
  | [] => None
  | (k', v) :: rest => if String.eqb k k' then Some v else assoc k rest
  end.

(** [getPlatform()]: [&&] runs [isMusl] only when the table gives the
    x86_64 GNU target. *)
Definition getPlatform (h : host) : option string * list proc_event :=
  let platform := assoc (arch h ++ " " ++ Release.platform h) platforms in
  match platform with
  | Some p =>
      if String.eqb p "x86_64-unknown-linux-gnu" then
        let '(musl, evs) := isMusl h in
        (if musl then Some "x86_64-unknown-linux-musl" else platform, evs)
      else (platform, [])
  | None => (platform, [])
  end.

Record asset : Type := mkAsset {
  asset_name : string;
  browser_download_url : string
}.

Record github_release : Type := mkGithubRelease {
  tag_name : string;
  published_at : string;
  assets : list asset
}.

Record release_tag : Type := mkReleaseTag {
  tag : string;
  url : string;
  name : string;
  rasset : option asset
}.

Definition stable_url : string :=
  "https://api.github.com/repos/wgsl-analyzer/wgsl-analyzer/releases/latest".
Definition nightly_url : string :=
  "https://api.github.com/repos/wgsl-analyzer/wgsl-analyzer/releases/tags/nightly".

(** What [await fetch(releaseURL)] and [await response.json()] give:
    the [fetch] promise rejects (a network error), the response is not ok,
    [response.json()] rejects (a body that does not parse), or the parsed
    release. *)
Inductive response : Type :=
| FetchRejects (e : error)
| NotOk
| JsonRejects (e : error)
| Body (release : github_release).

(** [getLatestRelease(updatesChannel)]: the tag it resolves to ([None] for
    [undefined]), the processes and requests it makes, and the error its
    promise rejects with ([None] when it resolves). *)
Definition getLatestRelease (updatesChannel : string) (h : host)
  (response : response) : option release_tag * list proc_event * option error :=
  let releaseURL := if String.eqb updatesChannel "nightly" then nightly_url else stable_url in
  let fetched := [Fetch releaseURL] in
  match response with
  | FetchRejects e => (None, fetched, Some e)
  | NotOk => (None, fetched, None)
  | JsonRejects e => (None, fetched, Some e)
  | Body release =>
      let '(platform, pevs) := getPlatform h in
      let evs := (fetched ++ pevs)%list in
      match platform with
      | None => (None, evs, None)
      | Some pl =>
          let suffix := if String.eqb (Release.platform h) "win32" then "zip" else "gz" in
          match find (fun v => ends_with (browser_download_url v) (pl ++ "." ++ suffix))
                  (assets release) with
          | None => (None, evs, None)
          | Some a =>
              let tg :=
                if String.eqb updatesChannel "nightly"
                then tag_name release ++ " " ++ substring 0 10 (published_at release)
                else tag_name release in
              let nm := if String.eqb (Release.platform h) "win32"
                        then "wgsl-analyzer.exe" else "wgsl-analyzer" in
              (Some (mkReleaseTag tg (browser_download_url a) nm (Some a)), evs, None)
          end
      end
  end.

End Release.

(** ** The extension context: resolveBin, installServerFromGitHub and
    checkUpdate (ctx.ts) *)

Module Ctx.

Local Open Scope list_scope.

(** [updates.prompt]: [boolean | 'neverDownload'], default [true]. *)
Inductive prompt_setting : Type :=
| PBool (b : bool)
| PNeverDownload.

(** The configuration getters used here; [server_path] and
    [legacy_serverPath] are [server.path] and [serverPath] ([None] for
    [null] or [undefined]). *)
Record config : Type := mkConfig {
  server_path : option string;
  legacy_serverPath : option string;
  checkOnStartup : bool;
  prompt : prompt_setting;
  channel : string
}.

(** [get serverPath()]: [server.path ?? serverPath]. *)
Definition serverPath (c : config) : option string :=
  match server_path c with
  | Some s => Some s
  | None => legacy_serverPath c
  end.

(** Truthiness of a [string | null | undefined]. *)
Definition str_truthy (o : option string) : bool :=
  match o with Some s => negb (String.eqb s "") | None => false end.

(** The fields of [Ctx] and of its [ExtensionContext] read or written
    here: [usingSystemServer], whether [this.client] has been set (it is
    only set once [startServer] found a binary), and the [release] key of
    [globalState]. *)
Record state : Type := mkState {
  usingSystemServer : bool;
  client : bool;
  release : option string
}.

Definition set_release (st : state) (t : string) : state :=
  mkState (usingSystemServer st) (client st) (Some t).

Definition set_system (st : state) : state :=
  mkState true (client st) (release st).

Inductive event : Type :=
| Proc (e : Release.proc_event)
| ShowInfo (msg : string) (level : option string)
| Quickpick (items : list string) (msg : string)
| ClientStop
| ClientStart
| Download (tag : string)
| OpenUrl (url : string).

(** [downloadServer(context, release)]: the network and file-system work is
    an oracle [dl]: [None] when it completes, [Some code] when it throws an
    error whose [code] is [code] ([None] for an error without one, such as
    ['Download failed']). On success outside Windows it has itself stored
    [release.tag] under [release] (line 181). *)
Definition downloadServer (h : Release.host) (st : state) (l : Release.release_tag)
  (dl : option (option string)) : list event * state * option (option string) :=
  match dl with
  | None =>
      ([Download (Release.tag l)],
       if String.eqb (Release.platform h) "win32" then st else set_release st (Release.tag l),
       None)
  | Some code => ([Download (Release.tag l)], st, Some code)
  end.

(** [e.code === 'EBUSY' || e.code === 'ETXTBSY' || e.code === 'EPERM'] *)
Definition busy (code : option string) : bool :=
  match code with
  | Some c => String.eqb c "EBUSY" || String.eqb c "ETXTBSY" || String.eqb c "EPERM"
  | None => false
  end.

(** [this.client.stop()]: a [TypeError] when [this.client] was never set. *)
Definition client_stop (st : state) : list event * option error :=
  if client st then ([ClientStop], None) else ([], Some ETypeError).

Definition install_failed (code : option string) : string :=
  if busy code
  then "Install wgsl-analyzer failed, other Vim instances might be using it, you should close them and try again"
  else "Install wgsl-analyzer failed, please try again".

Definition upgrade_failed (code : option string) : string :=
  if busy code
  then "Upgrade wgsl-analyzer failed, other Vim instances might be using it, you should close them and try again"
  else "Upgrade wgsl-analyzer failed, please try again".

(** After a successful download: [await this.client.stop();
    this.client.start(); globalState.update('release', latest.tag)]. *)
Definition restart_and_store (st : state) (l : Release.release_tag)
  : list event * state * option error :=
  let '(sevs, serr) := client_stop st in
  match serr with
  | Some e => (sevs, st, Some e)
  | None => (sevs ++ [ClientStart], set_release st (Release.tag l), None)
  end.

(** [installServerFromGitHub()]; the release response and host are the
    inputs of [getLatestRelease], whose rejection is outside the [try]. The
    error of the Windows [client.stop()] is caught by the same [try] as the
    download. *)
Definition installServerFromGitHub (c : config) (st : state) (h : Release.host)
  (resp : Release.response) (dl : option (option string))
  : list event * state * option error :=
  let '(latest, pevs, rejected) := Release.getLatestRelease (channel c) h resp in
  let evs0 := map Proc pevs in
  match rejected with
  | Some e => (evs0, st, Some e)
  | None =>
  match latest with
  | None => (evs0, st, None)
  | Some l =>
      let '(sevs, serr) :=
        if String.eqb (Release.platform h) "win32" then client_stop st else ([], None) in
      match serr with
      | Some _ =>
          (evs0 ++ sevs ++ [ShowInfo (install_failed None) (Some "error")], st, None)
      | None =>
          let '(devs, st1, derr) := downloadServer h st l dl in
          match derr with
          | Some code =>
              (evs0 ++ sevs ++ devs ++ [ShowInfo (install_failed code) (Some "error")], st1, None)
          | None =>
              let '(revs, st2, rerr) := restart_and_store st1 l in
              (evs0 ++ sevs ++ devs ++ revs, st2, rerr)
          end
      end
  end
  end.

Definition upgrade_items : list string :=
  ["Yes, download the latest wgsl-analyzer"; "Check GitHub releases"; "Cancel"].

Definition releases_page : string :=
  "https://github.com/wgsl-analyzer/wgsl-analyzer/releases".

(** [globalState.get('release') || 'unknown release'] *)
Definition old_release (st : state) : string :=
  if str_truthy (release st) then
    match release st with Some s => s | None => "unknown release" end
  else "unknown release".

Definition new_release_msg (t old : string) : string :=
  ("wgsl-analyzer has a new release: " ++ t ++ ", you're using " ++ old ++
  ". Would you like to download from GitHub")%string.

(** [checkUpdate(auto)]; [pick] is the answer of [showQuickpick] (-1 when
    cancelled). The rejection of [getLatestRelease] and the Windows
    [client.stop()] are outside the [try]. *)
Definition checkUpdate (auto : bool) (c : config) (st : state) (h : Release.host)
  (resp : Release.response) (pick : Z) (dl : option (option string))
  : list event * state * option error :=
  if str_truthy (serverPath c) || usingSystemServer st then ([], st, None)
  else if auto && negb (checkOnStartup c) then ([], st, None)
  else
    let '(latest, pevs, rejected) := Release.getLatestRelease (channel c) h resp in
    let evs0 := map Proc pevs in
    match rejected with
    | Some e => (evs0, st, Some e)
    | None =>
    match latest with
    | None => (evs0, st, None)
    | Some l =>
        let old := old_release st in
        if String.eqb old (Release.tag l) then
          (evs0 ++ (if auto then []
                    else [ShowInfo "Your wgsl-analyzer release is updated" None]), st, None)
        else
          let msg := new_release_msg (Release.tag l) old in
          let '(ret, evs1) :=
            match prompt c with
            | PBool true => (pick, [Quickpick upgrade_items msg])
            | _ => (0%Z, [])
            end in
          if Z.eqb ret 0 then
            let '(sevs, serr) :=
              if String.eqb (Release.platform h) "win32" then client_stop st else ([], None) in
            match serr with
            | Some e => (evs0 ++ evs1 ++ sevs, st, Some e)
            | None =>
                let '(devs, st1, derr) := downloadServer h st l dl in
                match derr with
                | Some code =>
                    (evs0 ++ evs1 ++ sevs ++ devs ++
                     [ShowInfo (upgrade_failed code) (Some "error")], st1, None)
                | None =>
                    let '(revs, st2, rerr) := restart_and_store st1 l in
                    (evs0 ++ evs1 ++ sevs ++ devs ++ revs, st2, rerr)
                end
            end
          else if Z.eqb ret 1 then (evs0 ++ evs1 ++ [OpenUrl releases_page], st, None)
          else (evs0 ++ evs1, st, None)
    end
    end.

(** The file system and [PATH] as [resolveBin] sees them; [version_stderr]
    is the [stderr] of [spawnSync(bin, ['--version'])], [None] when it is
    [null] (the process could not be spawned). *)
Record env : Type := mkEnv {
  storagePath : string;
  join : string -> string -> string;
  expand : string -> string;
  which : string -> option string;
  existsSync : string -> bool;
  version_stderr : string -> option string
}.

(** JavaScript white space within ASCII: tab, line feed, vertical tab,
    form feed, carriage return and space. *)
Definition is_ws (a : ascii) : bool :=
  let n := nat_of_ascii a in ((9 <=? n) && (n <=? 13))%nat || (n =? 32)%nat.

Fixpoint trim_start (s : string) : string :=
  match s with
  | EmptyString => EmptyString
  | String a r => if is_ws a then trim_start r else s
  end.

Fixpoint trim_end (s : string) : string :=
  match s with
  | EmptyString => EmptyString
  | String a r =>
      let r' := trim_end r in
      if String.eqb r' "" && is_ws a then EmptyString else String a r'
  end.

(** [s.trim()] *)
Definition trim (s : string) : string := trim_end (trim_start s).

Definition executableName (h : Release.host) : string :=
  if String.eqb (Release.platform h) "win32" then "wgsl-analyzer.exe" else "wgsl-analyzer".

(** [resolveBin()]: the path it returns, the state, the processes it runs
    and the error it throws. *)
Definition resolveBin (c : config) (st : state) (h : Release.host) (e : env)
  : option string * state * list Release.proc_event * option error :=
  let executableName := executableName h in
  let bin0 := join e (storagePath e) executableName in
  let bin :=
    if str_truthy (serverPath c) then
      let found := which e (expand e (match serverPath c with Some s => s | None => "" end)) in
      if str_truthy found then match found with Some b => b | None => bin0 end else bin0
    else bin0 in
  if existsSync e bin then (Some bin, st, [], None)
  else
    let systemBin := which e executableName in
    if str_truthy systemBin then
      let sb := match systemBin with Some b => b | None => "" end in
      let spawned := [Release.SpawnSync sb ["--version"]] in
      match version_stderr e sb with
      | None => (None, st, spawned, Some ETypeError)
      | Some stderr =>
          if (0 <? String.length (trim stderr))%nat then (None, st, spawned, None)
          else (Some sb, set_system st, spawned, None)
      end
    else (None, st, [], None).

End Ctx.

(** ** Commands built on [fetchRunnable] and [pickRunnable]: testCurrent
    and echoRunCommandLine (downloader.ts) *)

Module Commands.

Local Open Scope list_scope.

(** [testCurrent]: the events, and the runnable handed to [runSingle]. *)
Definition testCurrent (e : editor) : list ui_event * option runnable :=
  let '(evs, runnables) := fetch_runnable e in
  match runnables with
  | [] => (evs ++ [ShowInformation "No runnables found"], None)
  | _ => (evs, find (fun run => String.prefix "webby test" (label run)) runnables)
  end.

(** [['webby', ...args].join(' ')] in [echoRunCommandLine], with the
    runnable as left by the assignment to [executableArgs[0]]. *)
Definition echo_line (r : runnable) : string * runnable :=
  let '(args, r') := build_args r in
  (join ("webby" :: args), r').

(** [echoRunCommandLine]: the events, and the line passed to
    [window.echoLines] (when a runnable was picked). *)
Definition echoRunCommandLine (e : editor) : list ui_event * js (option string) :=
  let '(evs, res) := pick_runnable e in
  (evs, x <- res ;; match x with
                    | Some r => Ok (Some (fst (echo_line r)))
                    | None => Ok None
                    end).

End Commands.

(** ** Diagnostics under the cursor: isInRange and explainError
    (downloader.ts) *)

Module Diag.

Local Open Scope list_scope.

Record position : Type := mkPosition { line : Z; character : Z }.
Record range : Type := mkRange { start : position; end_ : position }.

(** [isInRange(range, position)], as written. *)
Definition isInRange (r : range) (p : position) : bool :=
  let lineWithin := (line (start r) <=? line p)%Z && (line p <=? line (end_ r))%Z in
  let charWithin := (character (start r) <=? character p)%Z && (character p <=? line (end_ r))%Z in
  lineWithin && charWithin.

(** A diagnostic's [code]: [number | string], or absent. *)
Inductive code_val : Type :=
| CNum (n : Z)
| CStr (s : string).

Record diagnostic : Type := mkDiagnostic { drange : range; code : option code_val }.

Definition code_truthy (c : option code_val) : bool :=
  match c with
  | Some (CNum n) => negb (Z.eqb n 0)
  | Some (CStr s) => negb (String.eqb s "")
  | None => false
  end.

(** [`${diag.code}`] *)
Definition code_string (c : code_val) : string :=
  match c with
  | CNum n => DecimalString.NilZero.string_of_int (Z.to_int n)
  | CStr s => s
  end.

(** [s.split(sep)] for a non-empty [sep]: the pieces between the
    leftmost non-overlapping occurrences of [sep]. Each step consumes at
    least one character, so [S (length s)] steps always suffice. *)
Fixpoint split_fuel (fuel : nat) (sep s : string) : list string :=
  match fuel with
  | O => [s]
  | S f =>
      match String.index 0 sep s with
      | None => [s]
      | Some i =>
          substring 0 i s ::
          split_fuel f sep (substring (i + String.length sep)
                              (String.length s - (i + String.length sep)) s)
      end
  end.

Definition split (sep s : string) : list string := split_fuel (S (String.length s)) sep s.

Record documentation : Type := mkDoc { content : string; filetype : string }.

(** The loop of [explainError] over the parts, with its [isCode] flag. *)
Fixpoint docs_of (isCode : bool) (parts : list string) : list documentation :=
  match parts with
  | [] => []
  | part :: rest =>
      mkDoc part (if isCode then "wgsl" else "markdown") :: docs_of (negb isCode) rest
  end.

Definition code_fence : string := String "`" (String "`" (String "`" (String (ascii_of_nat 10) EmptyString))).

Inductive float_event : Type :=
| SpawnWgpu (args : list string)
| ShowFloat (docs : list documentation).

(** [explainError]: the diagnostics of the document ([None] when
    [diagnostics?.get(uri)] is undefined) and the stdout of [wgpu --explain]
    ([None] when it is [null]: [wgpu] could not be spawned) as inputs; the
    events and the error thrown. *)
Definition explainError (is_wgsl : bool) (diags : option (list diagnostic)) (p : position)
  (explanation_of : string -> option string) : list float_event * option error :=
  if negb is_wgsl then ([], None)
  else
    let diag := match diags with
                | Some ds => find (fun d => isInRange (drange d) p) ds
                | None => None
                end in
    match diag with
    | Some d =>
        if code_truthy (code d) then
          let c := match code d with Some c => code_string c | None => "" end in
          match explanation_of c with
          | None => ([SpawnWgpu ["--explain"; c]], Some ETypeError)
          | Some explanation =>
              ([SpawnWgpu ["--explain"; c]; ShowFloat (docs_of false (split code_fence explanation))],
               None)
          end
        else ([], None)
    | None => ([], None)
    end.

End Diag.

(** ** Reload on configuration change: Config.onConfigChange (lsp_ext.ts) *)

Module ConfigChange.

Local Open Scope list_scope.

Definition rootSection : string := "wgsl-analyzer".

Definition requiresReloadOpts : list string :=
  map (fun option => rootSection ++ "." ++ option)%string
    ["server"; "webby"; "files"; "updates"; "lens"; "inlayHints"].

Inductive event : Type :=
| GetConfiguration (section : string)
| ShowPrompt (msg : string)
| ExecuteCommand (cmd : string).

(** [onConfigChange(event)]: [affects] is [event.affectsConfiguration],
    [restart] the value of [restartServerOnConfigChange] ([None] when
    unset) and [answer] the result of [window.showPrompt]. *)
Definition onConfigChange (affects : string -> bool) (restart : option bool) (answer : bool)
  : list event :=
  let evs0 := [GetConfiguration rootSection] in
  match find affects requiresReloadOpts with
  | None => evs0
  | Some requiresReloadOption =>
      let reload0 := match restart with Some true => true | _ => false end in
      let '(reload, evs1) :=
        if reload0 then (true, [])
        else
          let message := ("Changing " ++ String (ascii_of_nat 34) EmptyString ++
                          requiresReloadOption ++ String (ascii_of_nat 34) EmptyString ++
                          " requires a reload")%string in
          (answer, [ShowPrompt (message ++ ". Reload now?")%string]) in
      if reload then evs0 ++ evs1 ++ [ExecuteCommand "wgsl-analyzer.reload"]
      else evs0 ++ evs1
  end.

End ConfigChange.

(** ** Snippet edits

    [applySnippetWorkspaceEdit] of [src/src/downloader.ts] with [countLines]:
    the placeholders of the first text-document edit are expanded, the
    cursor is taken from [$0], and the editor actions are returned as
    events. *)
Module Snippet.

Local Open Scope list_scope.

(** [s.replaceAll(pat, rep)] for a non-empty string [pat]: the pieces
    between the leftmost non-overlapping occurrences, joined by [rep]. *)
Definition replaceAll (pat rep s : string) : string :=
  String.concat rep (Diag.split pat s).

Definition is_digit (a : ascii) : bool :=
  Nat.leb 48 (nat_of_ascii a) && Nat.leb (nat_of_ascii a) 57.

Fixpoint take_while (p : ascii -> bool) (s : string) : string * string :=
  match s with
  | EmptyString => (EmptyString, EmptyString)
  | String a s' =>
      if p a then let (x, r) := take_while p s' in (String a x, r) else (EmptyString, s)
  end.

(** A match of [/\$\{[0-9]+:([^\}]+)\}/] at the start of [s]: the group
    and the rest of [s]. Both runs are greedy and a shorter run would be
    followed by a digit or by a character other than [}], so the match,
    when there is one, is this one. *)
Definition match_placeholder (s : string) : option (string * string) :=
  match s with
  | String a (String b r1) =>
      if Ascii.eqb a "$"%char && Ascii.eqb b "{"%char then
        let (ds, r2) := take_while is_digit r1 in
        match ds, r2 with
        | String _ _, String colon r3 =>
            if Ascii.eqb colon ":"%char then
              let (g, r4) := take_while (fun c => negb (Ascii.eqb c "}"%char)) r3 in
              match g, r4 with
              | String _ _, String close r5 =>
                  if Ascii.eqb close "}"%char then Some (g, r5) else None
              | _, _ => None
              end
            else None
        | _, _ => None
        end
      else None
  | _ => None
  end.

(** [s.replaceAll(/\$\{[0-9]+:([^\}]+)\}/g, '$1')]: left to right, the
    replaced text is not scanned again. Each step consumes at least one
    character, so [S (length s)] steps suffice. *)
Fixpoint replace_placeholders_fuel (fuel : nat) (s : string) : string :=
  match fuel with
  | O => s
  | S f =>
      match s with
      | EmptyString => EmptyString
      | String a s' =>
          match match_placeholder s with
          | Some (g, rest) => g ++ replace_placeholders_fuel f rest
          | None => String a (replace_placeholders_fuel f s')
          end
      end
  end.

Definition replace_placeholders (s : string) : string :=
  replace_placeholders_fuel (S (String.length s)) s.

(** [indel.newText.replaceAll('\\}', '}').replaceAll(/.../g, '$1')] *)
Definition parse (newText : string) : string :=
  replace_placeholders (replaceAll "\}" "}" newText).

Definition nl : ascii := ascii_of_nat 10.

(** [countLines(text)]: the number of matches of [/\n/g]. *)
Fixpoint countLines (s : string) : nat :=
  match s with
  | EmptyString => 0
  | String a s' => (if Ascii.eqb a nl then 1 else 0) + countLines s'
  end.

(** [s.lastIndexOf(c)] for a one-character [c], [None] for [-1]. *)
Fixpoint lastIndexOf_char (c : ascii) (s : string) : option nat :=
  match s with
  | EmptyString => None
  | String a s' =>
      match lastIndexOf_char c s' with
      | Some i => Some (S i)
      | None => if Ascii.eqb a c then Some 0 else None
      end
  end.

Record text_edit : Type := mkEdit { erange : Diag.range; newText : string }.

Inductive document_change : Type :=
| TextDocumentEdit (uri : string) (edits : list text_edit)
| OtherChange (kind : string).   (* create, rename or delete a file *)

Record workspace_edit : Type := mkWorkspaceEdit { documentChanges : option (list document_change) }.

Inductive event : Type :=
| LoadFile (uri : string)
| JumpTo (uri : string)
| ApplyEdit (uri : string) (edits : list text_edit)
| MoveTo (p : Diag.position).

(** The cursor an edit sets, from the [$0] of its parsed text. *)
Definition snippet_cursor (r : Diag.range) (parsed : string) : option Diag.position :=
  match String.index 0 "$0" parsed with
  | None => None
  | Some index0 =>
      let prefix := substring 0 index0 parsed in
      let lastNewline := lastIndexOf_char nl prefix in
      let line := (Diag.line (Diag.start r) + Z.of_nat (countLines prefix))%Z in
      let col := match lastNewline with
                 | None => (Diag.character (Diag.start r) + Z.of_nat index0)%Z
                 | Some j => (Z.of_nat (String.length prefix) - Z.of_nat j - 1)%Z
                 end in
      Some (Diag.mkPosition line col)
  end.

Definition cursor_of (indel : text_edit) : option Diag.position :=
  snippet_cursor (erange indel) (parse (newText indel)).

Definition cleaned (indel : text_edit) : text_edit :=
  mkEdit (erange indel) (replaceAll "$0" "" (parse (newText indel))).

(** One turn of the [for] loop over [change.edits]. *)
Definition edit_step (acc : option Diag.position * list text_edit) (indel : text_edit)
  : option Diag.position * list text_edit :=
  let position := match cursor_of indel with Some p => Some p | None => fst acc end in
  (position, snd acc ++ [cleaned indel]).

(** [applySnippetWorkspaceEdit(edit)], with the uri of [workspace.document]
    as [current]; [None] is an undefined [edit]. *)
Definition applySnippetWorkspaceEdit (current : string) (edit : option workspace_edit) : list event :=
  match edit with
  | None => []
  | Some e =>
      match documentChanges e with
      | None | Some [] => []
      | Some (change :: _) =>
          match change with
          | OtherChange _ => []
          | TextDocumentEdit uri edits =>
              let (position, newEdits) := fold_left edit_step edits (None, []) in
              (if String.eqb current uri then [] else [LoadFile uri; JumpTo uri]) ++
              [ApplyEdit uri newEdits] ++
              match position with Some p => [MoveTo p] | None => [] end
          end
      end
  end.

(** Where the cursor ends after typing [t] at [p], character by character. *)
Fixpoint end_after (p : Diag.position) (t : string) : Diag.position :=
  match t with
  | EmptyString => p
  | String a t' =>
      if Ascii.eqb a nl then end_after (Diag.mkPosition (Diag.line p + 1) 0) t'
      else end_after (Diag.mkPosition (Diag.line p) (Diag.character p + 1)) t'
  end.

End Snippet.

(** ** Sample inputs *)
Module Samples.

Definition artifact_foo : jsval :=
  JObj [("reason", JStr "compiler-artifact");
        ("target", JObj [("kind", JArr [JStr "bin"]); ("name", JStr "foo")]);
        ("executable", JStr "/x")].

(** The stream of the specification's example. *)
Definition spec_stream : list line :=
  [NotJson; Json (JObj [("reason", JStr "other")]); Json artifact_foo].

Definition artifact_lib : jsval :=
  JObj [("reason", JStr "compiler-artifact");
        ("target", JObj [("kind", JArr [JStr "lib"]); ("name", JStr "foo")]);
        ("executable", JStr "/lib")].

Definition artifact_no_target : jsval :=
  JObj [("reason", JStr "compiler-artifact"); ("executable", JStr "/x")].

Definition artifact_no_target_no_exe : jsval :=
  JObj [("reason", JStr "compiler-artifact")].

(** [{"reason":{"toString":1}}] *)
Definition reason_with_toString : jsval :=
  JObj [("reason", JObj [("toString", JNum 1)])].



Definition webby_run (exeArgs : list string) : runnable :=
  mkRunnable "run foo"
    (RWebby (Webby.mkArgs None ["run"; "--bin"; "foo"] exeArgs None None "/ws")).

Definition shell_runnable (prog : string) (xs : list string) : runnable :=
  mkRunnable "shell task" (RShell (Shell.mkArgs "custom" prog xs None "/ws")).


Definition linux_host : Release.host :=
  Release.mkHost "x64" "linux" (Some "ldd (GNU libc) 2.39").


Definition linux_asset : Release.asset :=
  Release.mkAsset "wgsl-analyzer-x86_64-unknown-linux-gnu.gz"
    "https://github.com/wgsl-analyzer/wgsl-analyzer/releases/download/2024-05-06/wgsl-analyzer-x86_64-unknown-linux-gnu.gz".

Definition windows_asset : Release.asset :=
  Release.mkAsset "wgsl-analyzer-x86_64-pc-windows-msvc.zip"
    "https://github.com/wgsl-analyzer/wgsl-analyzer/releases/download/2024-05-06/wgsl-analyzer-x86_64-pc-windows-msvc.zip".

Definition sample_release : Release.github_release :=
  Release.mkGithubRelease "2024-05-06" "2024-05-06T08:00:00Z" [windows_asset; linux_asset].

Definition ctx_config (p : Ctx.prompt_setting) : Ctx.config :=
  Ctx.mkConfig None None true p "stable".

Definition ctx_state (client : bool) (rel : option string) : Ctx.state :=
  Ctx.mkState false client rel.

(** A machine with no bundled server and [wgsl-analyzer] on [PATH]. *)
Definition system_env : Ctx.env :=
  Ctx.mkEnv "/home/u/.config/coc/extensions/coc-wgsl-analyzer-data"
    (fun d f => d ++ "/" ++ f)%string
    (fun s => s)
    (fun s => if String.eqb s "wgsl-analyzer" then Some "/usr/bin/wgsl-analyzer" else None)
    (fun s => String.eqb s "/usr/bin/wgsl-analyzer")
    (fun _ => Some (String (ascii_of_nat 10) EmptyString)).

(** What [getLatestRelease] makes of [sample_release] on [linux_host]. *)
Definition linux_tag : Release.release_tag :=
  Release.mkReleaseTag "2024-05-06" (Release.browser_download_url linux_asset)
    "wgsl-analyzer" (Some linux_asset).

(** The same configuration with neither [server.path] nor [serverPath]. *)
Definition without_server_path (c : Ctx.config) : Ctx.config :=
  Ctx.mkConfig None None (Ctx.checkOnStartup c) (Ctx.prompt c) (Ctx.channel c).

Definition at_pos (l c : Z) : Diag.range := Diag.mkRange (Diag.mkPosition l c) (Diag.mkPosition l c).

(** [fn ${1:f}() {], a new line, four spaces and [$0], a new line, [}]. *)
Definition fn_snippet : string :=
  "fn ${1:f}() {" ++ String Snippet.nl ("    $0" ++ String Snippet.nl "}").

End Samples.
Import Samples.

(** * Properties *)

Open Scope list_scope.

(** ** Debug-target scan *)

Lemma get_obj (fs : list (string * jsval)) (k : string) :
  get (JObj fs) k = Ok (field (JObj fs) k).
Proof. reflexivity. Qed.

Lemma body_wf (f : filter) (l : line) :
  wf_line l ->
  body f l = Ok (if line_qualifies f l then Break (match l with Json m => field m "executable" | _ => JUndef end)
                 else Continue).
Proof.
  destruct l as [| | m]; simpl; auto.
  intros [Hobj [Hrs Hart]]. destruct m as [| | | | | |fs]; try discriminate.
  unfold qualifies. cbn [get bind field] in *.
  destruct (strict_eq_str (lookup "reason" fs) "compiler-artifact") eqn:Hr;
    [|cbn [negb andb]; unfold log_continue; rewrite Hrs; reflexivity].
  specialize (Hart eq_refl). destruct Hart as (Ht & Hk & Hks & Hns).
  destruct (lookup "target" fs) as [| | | | | |tfs] eqn:Htg; try discriminate.
  cbn [negb andb get bind field] in *.
  destruct (lookup "kind" tfs) as [| | | | |kl|] eqn:Hkd; try discriminate.
  destruct (expectedKind f) as [k|]; cbn [negb andb get bind includes kind_contains].
  - destruct (existsb (fun x => strict_eq_str x k) kl); cbn [negb andb get bind];
      [|unfold log_continue; rewrite ?Hkd in Hks; rewrite Hks; reflexivity].
    destruct (expectedName f) as [n|]; cbn [negb andb get bind];
      [destruct (strict_eq_str (lookup "name" tfs) n); cbn [negb andb get bind];
       [|unfold log_continue; rewrite Hns; reflexivity]|];
      destruct (truthy (lookup "executable" fs)); reflexivity.
  - destruct (expectedName f) as [n|]; cbn [negb andb get bind];
      [destruct (strict_eq_str (lookup "name" tfs) n); cbn [negb andb get bind];
       [|unfold log_continue; rewrite Hns; reflexivity]|];
      destruct (truthy (lookup "executable" fs)); reflexivity.
Qed.

Lemma qualifies_truthy (f : filter) (m : jsval) :
  qualifies f m = true -> truthy (field m "executable") = true.
Proof.
  unfold qualifies. intros H. apply andb_prop in H as [_ H]. exact H.
Qed.

Lemma scan_cons (f : filter) (l : line) (rest : list line) :
  scan f (l :: rest) =
  match body f l with
  | TypeError => Thrown
  | Ok Continue => scan f rest
  | Ok (Break e) => Found e rest
  end.
Proof. reflexivity. Qed.

Lemma scan_app_notfound (f : filter) (pre rest : list line) :
  scan f pre = NotFound -> scan f (pre ++ rest) = scan f rest.
Proof.
  induction pre as [|l pre IH]; auto.
  cbn [app]. rewrite !scan_cons. destruct (body f l) as [[|e]|]; try discriminate. exact IH.
Qed.

Lemma resolve_app_notfound (f : filter) (pre rest : list line) :
  scan f pre = NotFound -> resolve f (pre ++ rest) = resolve f rest.
Proof. intros H. unfold resolve. rewrite (scan_app_notfound f pre rest H). reflexivity. Qed.

Lemma scan_none_qualifying (f : filter) (ls : list line) :
  Forall wf_line ls -> Forall (not_qualifying f) ls -> scan f ls = NotFound.
Proof.
  induction ls as [|l ls IH]; auto.
  intros Hwf Hnq. inversion Hwf; inversion Hnq; subst.
  rewrite scan_cons, (body_wf f l) by assumption. unfold not_qualifying in *.
  match goal with H : line_qualifies f l = false |- _ => rewrite H end. auto.
Qed.

Lemma scan_qualifying_hit (f : filter) (m : jsval) (post : list line) :
  wf_message m -> qualifies f m = true ->
  scan f (Json m :: post) = Found (field m "executable") post.
Proof.
  intros Hwf Hq. rewrite scan_cons, (body_wf f (Json m)) by exact Hwf.
  cbn [line_qualifies]. rewrite Hq. reflexivity.
Qed.

Lemma scan_cases (f : filter) (ls : list line) :
  Forall wf_line ls ->
  (scan f ls = NotFound /\ Forall (not_qualifying f) ls) \/
  (exists pre m post, ls = pre ++ Json m :: post /\ Forall (not_qualifying f) pre /\
     qualifies f m = true /\ scan f ls = Found (field m "executable") post).
Proof.
  induction ls as [|l ls IH]; intros Hwf; [left; split; simpl; auto|].
  inversion Hwf as [|? ? Hl Hls]; subst. specialize (IH Hls).
  destruct (line_qualifies f l) eqn:Hq.
  - right. destruct l as [| |m]; try discriminate.
    exists [], m, ls. repeat split; auto.
    apply scan_qualifying_hit; assumption.
  - destruct IH as [[Hs Hall]|(pre & m & post & -> & Hpre & Hm & Hs)].
    + left. split; [|constructor; assumption].
      rewrite scan_cons, (body_wf f l Hl), Hq. exact Hs.
    + right. exists (l :: pre), m, post. repeat split; auto.
      rewrite scan_cons, (body_wf f l Hl), Hq. exact Hs.
Qed.

(** C1 (as amended). On a stream of build-tool messages of the expected
    schema (every parsed line an object, every artifact message with a
    [target] object whose [kind] is an array, and no object with an own
    [toString] property in a [reason], [target.kind] or [target.name]), the scan resolves to the
    [executable] of the first message passing the kind and name filters
    with a non-empty [executable], leaving every later line unread, and it
    fails with "Could not find executable" exactly when no line of the
    stream is such a message. *)
Theorem debug_scan_first_qualifying (f : filter) (ls : list line) :
  (forall pre m post,
      ls = pre ++ Json m :: post ->
      Forall wf_line pre -> wf_message m ->
      Forall (not_qualifying f) pre -> qualifies f m = true ->
      scan f ls = Found (field m "executable") post /\
      resolve f ls = inl (field m "executable")) /\
  (Forall wf_line ls ->
   (resolve f ls = inr (EError "Could not find executable") <->
    Forall (not_qualifying f) ls)).
Proof.
  split.
  - intros pre m post -> Hwpre Hwm Hpre Hm.
    assert (Hs : scan f (pre ++ Json m :: post) = Found (field m "executable") post).
    { rewrite scan_app_notfound by (apply scan_none_qualifying; assumption).
      apply scan_qualifying_hit; assumption. }
    split; [exact Hs|]. unfold resolve. rewrite Hs, (qualifies_truthy f m Hm). reflexivity.
  - intros Hwf. destruct (scan_cases f ls Hwf) as [[Hs Hall]|(pre & m & post & -> & Hpre & Hm & Hs)].
    + unfold resolve. rewrite Hs. split; auto.
    + unfold resolve. rewrite Hs, (qualifies_truthy f m Hm). split; [discriminate|].
      intros Hall. apply Forall_app in Hall as [_ Hall]. inversion Hall as [|? ? Hq].
      unfold not_qualifying in Hq. simpl in Hq. congruence.
Qed.

Example derive_filter_bin_foo :
  derive_filter ["--bin"; "foo"] = mkFilter (Some "bin") (Some "foo").
Proof. reflexivity. Qed.

Example spec_stream_resolves :
  resolve (derive_filter ["--bin"; "foo"]) spec_stream = inl (JStr "/x").
Proof. reflexivity. Qed.

Lemma debug_scan_first_qualifying_witness :
  (scan (derive_filter ["--bin"; "foo"]) (spec_stream ++ [Json JNull]) =
     Found (JStr "/x") [Json JNull] /\
   resolve (derive_filter ["--bin"; "foo"]) (spec_stream ++ [Json JNull]) = inl (JStr "/x")) /\
  (resolve (derive_filter ["--bin"; "foo"]) [NotJson; Json artifact_lib] =
     inr (EError "Could not find executable") <->
   Forall (not_qualifying (derive_filter ["--bin"; "foo"])) [NotJson; Json artifact_lib]).
Proof.
  split.
  - apply (proj1 (debug_scan_first_qualifying (derive_filter ["--bin"; "foo"])
             (spec_stream ++ [Json JNull]))
             [NotJson; Json (JObj [("reason", JStr "other")])] artifact_foo [Json JNull]).
    + reflexivity.
    + constructor; [exact I|]. constructor; [|constructor].
      split; [reflexivity|]. split; [reflexivity|]. discriminate.
    + split; [reflexivity|]. split; [reflexivity|]. intros _. repeat split.
    + constructor; [reflexivity|]. constructor; [reflexivity|constructor].
    + reflexivity.
  - apply (proj2 (debug_scan_first_qualifying (derive_filter ["--bin"; "foo"])
             [NotJson; Json artifact_lib])).
    constructor; [exact I|]. constructor; [|constructor].
    split; [reflexivity|]. split; [reflexivity|]. intros _. repeat split.
Defined.

(** C1, as stated, fails: an artifact message without a [target] object,
    read under the filter [(bin, foo)], is not a qualifying message, yet the
    scan throws a [TypeError] on it instead of failing with
    "Could not find executable". So does the message
    [{"reason":{"toString":1}}], whose reason the log line
    [`Not artifact: ${...}`] cannot convert. *)
Lemma debug_scan_claim_counterexample :
  (Forall (not_qualifying (derive_filter ["--bin"; "foo"])) [Json artifact_no_target_no_exe] /\
   resolve (derive_filter ["--bin"; "foo"]) [Json artifact_no_target_no_exe] = inr ETypeError) /\
  (Forall (not_qualifying (derive_filter ["--bin"; "foo"])) [Json reason_with_toString] /\
   resolve (derive_filter ["--bin"; "foo"]) [Json reason_with_toString] = inr ETypeError).
Proof. split; (split; [repeat constructor | reflexivity]). Qed.

(** C10 (as amended). Once the scan reaches a line: a line parsing to
    [null] aborts it with a [TypeError]; a line parsing to a number, a
    string or a boolean is skipped like a non-artifact; an artifact message
    whose [target] is absent or [null] aborts it with a [TypeError] when the
    filter has an expected kind or name, and is otherwise read without
    touching [target] (resolving to its [executable] when that is non-empty,
    skipped otherwise). *)
Theorem debug_scan_malformed_lines (f : filter) (pre post : list line) :
  scan f pre = NotFound ->
  resolve f (pre ++ Json JNull :: post) = inr ETypeError /\
  (forall v, is_primitive v = true ->
     resolve f (pre ++ Json v :: post) = resolve f post) /\
  (forall fs,
     lookup "reason" fs = JStr "compiler-artifact" ->
     (lookup "target" fs = JUndef \/ lookup "target" fs = JNull) ->
     (expectedKind f <> None \/ expectedName f <> None) ->
     resolve f (pre ++ Json (JObj fs) :: post) = inr ETypeError) /\
  (forall fs,
     lookup "reason" fs = JStr "compiler-artifact" ->
     expectedKind f = None -> expectedName f = None ->
     resolve f (pre ++ Json (JObj fs) :: post) =
       if truthy (lookup "executable" fs) then inl (lookup "executable" fs)
       else resolve f post).
Proof.
  intros Hpre. repeat split; intros;
    rewrite !(resolve_app_notfound f pre) by exact Hpre; unfold resolve; rewrite !scan_cons.
  - reflexivity.
  - destruct v; try discriminate; reflexivity.
  - rename H into Hr, H0 into Ht, H1 into Hf. cbn [body get bind]. rewrite Hr. cbn.
    destruct f as [[k|] [n|]]; cbn [expectedKind expectedName bind];
      destruct Ht as [Ht|Ht]; try rewrite Ht; cbn; try reflexivity.
    all: destruct Hf as [Hf|Hf]; contradiction Hf; reflexivity.
  - rename H into Hr, H0 into Hk, H1 into Hn. cbn [body get bind]. rewrite Hr, Hk, Hn. cbn.
    destruct (truthy (lookup "executable" fs)) eqn:He; [rewrite He|]; reflexivity.
Qed.

Lemma debug_scan_malformed_lines_witness :
  resolve (mkFilter (Some "bin") None) ([NotJson] ++ Json JNull :: [Json artifact_foo])
    = inr ETypeError.
Proof.
  apply (proj1 (debug_scan_malformed_lines (mkFilter (Some "bin") None)
                  [NotJson] [Json artifact_foo] eq_refl)).
Defined.

(** C10, as stated, fails: a line parsing to the number [5] (a non-object)
    is skipped, and an artifact message without [target] read under the
    empty filter resolves to its executable; neither throws. *)
Lemma debug_scan_malformed_claim_counterexample :
  resolve (derive_filter ["--bin"; "foo"]) [Json (JNum 5); Json artifact_foo] = inl (JStr "/x") /\
  derive_filter ["run"] = mkFilter None None /\
  resolve (derive_filter ["run"]) [Json artifact_no_target] = inl (JStr "/x").
Proof. repeat split. Qed.

(** ** Filter derivation *)

Lemma kind_loop_some (args : list string) (k : string) :
  kind_loop args (Some k) =
  (Some k, match args with
           | [] => None
           | a :: _ => if String.eqb k "lib" then None else Some a
           end).
Proof. destruct args; reflexivity. Qed.

Lemma kind_loop_first_flag (args : list string) :
  kind_loop args None =
  (option_map fst (first_flag args),
   match first_flag args with
   | Some (k, rest) => if String.eqb k "lib" then None else hd_error rest
   | None => None
   end).
Proof.
  induction args as [|a rest IH]; [reflexivity|].
  cbn [kind_loop first_flag]. destruct (flag_kind a) as [k|].
  - rewrite kind_loop_some. destruct rest; simpl; [destruct (String.eqb k "lib")|]; reflexivity.
  - exact IH.
Qed.

Lemma package_loop_after_package (args : list string) :
  package_loop args false = after_package args.
Proof.
  induction args as [|a rest IH]; [reflexivity|].
  cbn [package_loop after_package]. destruct (String.eqb a "--package").
  - destruct rest; reflexivity.
  - exact IH.
Qed.

(** C2. The filter [debugSingle] derives from [webbyArgs] is the one the
    specification describes: the first kind flag among [--bin], [--lib],
    [--test], [--example], [--bench] gives the kind, the token right after
    it the name unless the kind is [lib], and otherwise the token after the
    first [--package] gives the name; in particular [--bin foo] gives
    [(bin, foo)], [--lib] gives [(lib, undefined)], [--lib --package bar]
    gives [(lib, bar)], and arguments with no kind flag and no [--package]
    give [(undefined, undefined)]. *)
Theorem derive_filter_matches_spec :
  (forall webbyArgs, derive_filter webbyArgs = spec_filter webbyArgs) /\
  derive_filter ["--bin"; "foo"] = mkFilter (Some "bin") (Some "foo") /\
  derive_filter ["--lib"] = mkFilter (Some "lib") None /\
  derive_filter ["--lib"; "--package"; "bar"] = mkFilter (Some "lib") (Some "bar") /\
  (forall webbyArgs,
     Forall (fun a => flag_kind a = None /\ a <> "--package") webbyArgs ->
     derive_filter webbyArgs = mkFilter None None).
Proof.
  assert (Hspec : forall webbyArgs, derive_filter webbyArgs = spec_filter webbyArgs).
  { intros webbyArgs. unfold derive_filter, spec_filter.
    rewrite kind_loop_first_flag, package_loop_after_package.
    destruct (first_flag webbyArgs) as [[k rest]|]; [|reflexivity].
    destruct (if String.eqb k "lib" then None else hd_error rest); reflexivity. }
  repeat split; try reflexivity; [exact Hspec|].
  intros webbyArgs Hall. rewrite Hspec. unfold spec_filter.
  assert (Hf : first_flag webbyArgs = None).
  { induction Hall as [|a rest [Ha _] _ IH]; [reflexivity|]. simpl. rewrite Ha. exact IH. }
  assert (Hp : after_package webbyArgs = None).
  { clear Hf. induction Hall as [|a rest [_ Ha] _ IH]; [reflexivity|]. simpl.
    destruct (String.eqb_spec a "--package"); [contradiction|exact IH]. }
  rewrite Hf, Hp. reflexivity.
Qed.

Lemma derive_filter_matches_spec_witness :
  derive_filter ["run"; "--release"] = mkFilter None None.
Proof.
  apply (proj2 (proj2 (proj2 (proj2 derive_filter_matches_spec)))).
  repeat constructor; discriminate.
Defined.

(** ** Command lines *)

(** C3. For a webby runnable, [runSingle]'s token list is [webbyArgs]
    itself when [executableArgs] is empty, and otherwise [webbyArgs], then
    [--], then [executableArgs] with only its first element wrapped in
    single quotes. *)
Theorem run_args_webby (r : runnable) (a : Webby.t) :
  args r = RWebby a ->
  (Webby.executableArgs a = [] -> fst (build_args r) = Webby.webbyArgs a) /\
  (forall x xs, Webby.executableArgs a = x :: xs ->
     fst (build_args r) = Webby.webbyArgs a ++ "--" :: ("'" ++ x ++ "'")%string :: xs).
Proof.
  intros Hr. unfold build_args. rewrite Hr. split.
  - intros He. rewrite He. reflexivity.
  - intros x xs He. rewrite He. reflexivity.
Qed.

Lemma run_args_webby_witness :
  fst (build_args (webby_run ["a"; "b"])) = ["run"; "--bin"; "foo"; "--"; "'a'"; "b"].
Proof.
  apply (proj2 (run_args_webby (webby_run ["a"; "b"]) _ eq_refl) "a" ["b"] eq_refl).
Defined.

(** C4 (code bug). [runSingle] runs a shell runnable under its kind
    tag: the shell runnable with program [cargo] and args [build] gives the
    command line [shell build], not [cargo build]; the [program] field is
    never read. *)
Theorem run_command_shell_uses_kind :
  fst (run_command (shell_runnable "cargo" ["build"])) = "shell build" /\
  fst (run_command (shell_runnable "cargo" ["build"])) <> "cargo build".
Proof. split; [reflexivity|]. vm_compute. discriminate. Qed.

(** C5 (code bug). [runSingle] writes the quoted first executable
    argument back into the runnable it was given: running the webby
    runnable with executable argument [a] leaves it with executable
    argument ['a'], and running it again quotes it twice; [debugSingle]
    does the same. *)
Theorem run_single_mutates_runnable :
  snd (run_command (webby_run ["a"])) <> webby_run ["a"] /\
  snd (run_command (webby_run ["a"])) = webby_run ["'a'"] /\
  fst (run_command (snd (run_command (webby_run ["a"])))) =
    "webby run --bin foo -- ''a''" /\
  snd (debug_args (webby_run ["a"])) = webby_run ["'a'"].
Proof. repeat split. vm_compute. discriminate. Qed.

(** C6 (as amended). [debugSingle]'s build arguments are the constructed
    tokens of the runnable, whatever its kind, with [--no-run] appended when
    the first token is [test], a first token [run] replaced by [build], and
    [--message-format=json] always appended last. *)
Theorem debug_args_rewrites (r : runnable) :
  let toks := fst (build_args r) in
  (hd_error toks = Some "test" ->
     fst (debug_args r) = toks ++ ["--no-run"; "--message-format=json"]) /\
  (forall rest, toks = "run" :: rest ->
     fst (debug_args r) = "build" :: rest ++ ["--message-format=json"]) /\
  (hd_error toks <> Some "test" -> hd_error toks <> Some "run" ->
     fst (debug_args r) = toks ++ ["--message-format=json"]) /\
  (exists init, fst (debug_args r) = init ++ ["--message-format=json"]).
Proof.
  unfold debug_args. destruct (build_args r) as [toks r']. cbn [fst].
  destruct toks as [|a0 rest]; cbn [hd_error].
  - repeat split; try discriminate. exists []. reflexivity.
  - destruct (String.eqb_spec a0 "test") as [->|Ht].
    + repeat split.
      * intros _. simpl. rewrite <- app_assoc. reflexivity.
      * intros ? H. discriminate.
      * intros H. contradiction H; reflexivity.
      * eexists. reflexivity.
    + destruct (String.eqb_spec a0 "run") as [->|Hr].
      * repeat split.
        -- intros H. discriminate.
        -- intros ? H. injection H as <-. reflexivity.
        -- intros _ H. contradiction H; reflexivity.
        -- eexists. reflexivity.
      * simpl.
        repeat split; intros; try congruence.
        exists (a0 :: rest). reflexivity.
Qed.

Lemma debug_args_rewrites_witness :
  fst (debug_args (shell_runnable "sh" ["test"; "x"])) =
    ["test"; "x"; "--no-run"; "--message-format=json"].
Proof.
  apply (proj1 (debug_args_rewrites (shell_runnable "sh" ["test"; "x"]))). reflexivity.
Defined.

(** C6, as stated, fails: a shell runnable whose args start with [test]
    gets [--no-run], and one whose args start with [run] gets [build]. *)
Lemma debug_args_rewrites_counterexample :
  fst (debug_args (shell_runnable "sh" ["test"])) = ["test"; "--no-run"; "--message-format=json"] /\
  fst (debug_args (shell_runnable "sh" ["run"; "x"])) = ["build"; "x"; "--message-format=json"].
Proof. split; reflexivity. Qed.

(** ** Debugger launch *)









Example nvim_dap_launch :
  launch (mkConfig "nvim-dap" "" (Some "{program=$exe, args=$args}") false) (JStr "/x") "/x" "'a' b" =
  ([NvimLua ("require(" ++ dq ++ "dap" ++ dq ++ ").run({program=" ++ dq ++ "/x" ++ dq
             ++ ", args={" ++ dq ++ "'a'" ++ dq ++ "," ++ dq ++ "b" ++ dq ++ "}})")], None).
Proof. reflexivity. Qed.

(** ** The run-terminal slot *)

Lemma dispose_slot_inv (w : world) :
  slot_inv w -> live (dispose_slot w) = [] /\ slot (dispose_slot w) = None /\
  next (dispose_slot w) = next w /\
  events (dispose_slot w) = events w ++ match slot w with Some t => [Dispose t] | None => [] end.
Proof.
  intros [Hl _]. unfold dispose_slot.
  destruct (slot w) as [t|] eqn:Hs; cbn.
  - rewrite Hl. cbn. destruct (Nat.eq_dec t t); [|contradiction]. auto.
  - rewrite app_nil_r. auto.
Qed.

Lemma run_single_seq_inv (w : world) (r : runnable) :
  slot_inv w ->
  slot_inv (run_single_seq w r) /\
  live (dispose_slot w) = [] /\
  events (run_single_seq w r) =
    events w ++ match slot w with Some t => [Dispose t] | None => [] end ++
    [Create (next w) (fst (terminal_options r)) (snd (terminal_options r));
     SendText (next w) (fst (run_command r))].
Proof.
  intros Hinv. destruct (dispose_slot_inv w Hinv) as (Hl & Hs & Hn & He).
  unfold run_single_seq. destruct (terminal_options r) as [name cwd]. cbn [fst snd].
  unfold create_and_store. cbn [slot live next events].
  rewrite Hl, Hn, He, <- app_assoc. repeat split; auto.
  intros t Ht. cbn in Ht |- *. injection Ht as <-. lia.
Qed.

(** Extra: for calls of [runSingle] that do not overlap (each one stores
    its terminal before the next begins), the slot is the only live
    terminal after every call, no terminal is live between the disposal of
    the old terminal and the creation of the new one, and each call
    disposes the terminal in the slot exactly once before creating and
    storing the new one. *)
Theorem run_terminal_slot_sequential (rs : list runnable) (r : runnable) :
  let w := fold_left run_single_seq rs init_world in
  slot_inv w /\ length (live w) <= 1 /\
  live (dispose_slot w) = [] /\
  events (run_single_seq w r) =
    events w ++ match slot w with Some t => [Dispose t] | None => [] end ++
    [Create (next w) (fst (terminal_options r)) (snd (terminal_options r));
     SendText (next w) (fst (run_command r))] /\
  slot_inv (run_single_seq w r).
Proof.
  cbv zeta.
  assert (Hinv : forall ws w0, slot_inv w0 -> slot_inv (fold_left run_single_seq ws w0)).
  { induction ws as [|r0 ws IH]; intros w0 H0; [exact H0|].
    cbn [fold_left]. apply IH. apply (run_single_seq_inv w0 r0 H0). }
  assert (H0 : slot_inv init_world) by (split; [reflexivity|discriminate]).
  specialize (Hinv rs init_world H0).
  destruct (run_single_seq_inv _ r Hinv) as (H1 & H2 & H3).
  split; [exact Hinv|]. split; [|split; [exact H2|split; [exact H3|exact H1]]].
  destruct Hinv as [Hl _]. rewrite Hl.
  destruct (slot (fold_left run_single_seq rs init_world)); cbn; lia.
Qed.

(** C8 (code bug). Two calls of [runSingle] whose segments interleave
    (both dispose an empty slot, then both create a terminal) leave two
    live terminals, the first of them never disposed. *)
Theorem run_terminal_slot_race :
  let '(w, _) := run_schedule init_world
                   [thread_of (webby_run []); thread_of (webby_run [])] [0; 1; 0; 1] in
  live w = [0; 1] /\ slot w = Some 1 /\
  ~ In (Dispose 0) (events w).
Proof. vm_compute. repeat split. intros [H|[H|[H|[H|H]]]]; try discriminate; contradiction. Qed.

(** ** Preconditions *)

(** C9. The precondition cases are silent: on a non-WGSL document the
    fetcher returns the empty list without any request or message, an
    empty runnable list gives no selection without presenting the picker,
    and a cancelled picker gives no selection; none of them throws. *)
Theorem pick_preconditions_silent :
  (forall e, doc_is_wgsl e = false ->
     fetch_runnable e = ([], []) /\ pick_runnable e = ([], Ok None)) /\
  (forall e, snd (fetch_runnable e) = [] ->
     snd (pick_runnable e) = Ok None /\
     forall labels, ~ In (ShowQuickpick labels) (fst (pick_runnable e))) /\
  (forall e, picked e = (-1)%Z -> snd (pick_runnable e) = Ok None).
Proof.
  split; [|split].
  - intros e He. unfold pick_runnable, fetch_runnable. rewrite He. split; reflexivity.
  - intros e He. unfold pick_runnable.
    destruct (fetch_runnable e) as [evs rs] eqn:Hf. cbn [snd] in He. subst rs.
    split; [reflexivity|]. cbn [fst]. intros labels Hin.
    unfold fetch_runnable in Hf. destruct (negb (doc_is_wgsl e)); injection Hf; intros; subst evs.
    + exact Hin.
    + destruct Hin as [Hi|[Hi|[]]]; discriminate.
  - intros e Hp. unfold pick_runnable.
    destruct (fetch_runnable e) as [evs [|r rs]]; [reflexivity|].
    rewrite Hp. reflexivity.
Qed.

Lemma pick_preconditions_silent_witness :
  pick_runnable (mkEditor false [webby_run []] 0) = ([], Ok None) /\
  snd (pick_runnable (mkEditor true [] 0)) = Ok None /\
  snd (pick_runnable (mkEditor true [webby_run []] (-1))) = Ok None.
Proof.
  destruct pick_preconditions_silent as (H1 & H2 & H3).
  split; [apply (H1 (mkEditor false [webby_run []] 0)); reflexivity|].
  split; [apply (H2 (mkEditor true [] 0)); reflexivity|].
  apply (H3 (mkEditor true [webby_run []] (-1))). reflexivity.
Defined.

(** ** Platform detection and release lookup *)

Lemma find_first {A} (p : A -> bool) (l : list A) (x : A) :
  find p l = Some x ->
  exists pre post, l = pre ++ x :: post /\ Forall (fun y => p y = false) pre /\ p x = true.
Proof.
  induction l as [|y l IH]; [discriminate|]. cbn [find].
  destruct (p y) eqn:Hy.
  - intros H. injection H as <-. exists [], l. auto.
  - intros H. destruct (IH H) as (pre & post & -> & Hpre & Hx).
    exists (y :: pre), post. auto.
Qed.

Lemma find_none {A} (p : A -> bool) (l : list A) :
  find p l = None -> Forall (fun y => p y = false) l.
Proof.
  induction l as [|y l IH]; [constructor|]. cbn [find].
  destruct (p y) eqn:Hy; [discriminate|]. intros H. constructor; auto.
Qed.

Lemma assoc_platforms_not_musl (k p : string) :
  Release.assoc k Release.platforms = Some p -> p <> "x86_64-unknown-linux-musl".
Proof.
  cbn [Release.assoc Release.platforms].
  repeat match goal with |- context [String.eqb ?a ?b] => destruct (String.eqb a b) end;
    intros H; try discriminate H; injection H as <-; discriminate.
Qed.

(** Extra: [getPlatform] runs [ldd --version] exactly when the platform
    table gives the x86_64 GNU/Linux target, gives the musl target exactly
    then and when [ldd] reports musl libc, and gives [undefined] for an
    arch/platform pair outside the table. *)
Theorem getPlatform_musl_only_on_x64_linux (h : Release.host) :
  let key := (Release.arch h ++ " " ++ Release.platform h)%string in
  (snd (Release.getPlatform h) <> [] <->
     Release.assoc key Release.platforms = Some "x86_64-unknown-linux-gnu") /\
  (fst (Release.getPlatform h) = Some "x86_64-unknown-linux-musl" <->
     Release.assoc key Release.platforms = Some "x86_64-unknown-linux-gnu" /\
     exists e, Release.ldd_stderr h = Some e /\ Release.contains e "musl libc" = true) /\
  (Release.assoc key Release.platforms = None -> fst (Release.getPlatform h) = None).
Proof.
  cbv zeta. unfold Release.getPlatform, Release.isMusl.
  destruct (Release.assoc _ Release.platforms) as [p|] eqn:Ha.
  - destruct (String.eqb_spec p "x86_64-unknown-linux-gnu") as [->|Hp].
    + destruct (Release.ldd_stderr h) as [e|]; cbn [fst snd];
        [destruct (Release.contains e "musl libc") eqn:Hc|].
      all: repeat split; intros;
        repeat match goal with
               | H : _ /\ _ |- _ => destruct H
               | H : exists _, _ |- _ => destruct H
               end; try congruence; eauto.
    + pose proof (assoc_platforms_not_musl _ _ Ha) as Hm.
      cbn [fst snd]. repeat split; intros;
        repeat match goal with
               | H : _ /\ _ |- _ => destruct H
               | H : exists _, _ |- _ => destruct H
               end; try congruence.
  - cbn [fst snd]. repeat split; intros;
      repeat match goal with
             | H : _ /\ _ |- _ => destruct H
             | H : exists _, _ |- _ => destruct H
             end; try congruence.
Qed.

(** Extra: a release returned by [getLatestRelease] comes from an ok
    response that parsed and a supported platform, and the promise then
    resolves; its asset is the first asset of the release whose download
    URL ends in [<platform>.zip] (on Windows) or [<platform>.gz]; its URL is
    that asset's URL; its tag is the release tag, followed for the nightly
    channel by the first ten characters of the publication date; its name
    is [wgsl-analyzer.exe] on Windows and [wgsl-analyzer] elsewhere. *)
Theorem getLatestRelease_result (ch : string) (h : Release.host)
  (resp : Release.response) (rel : Release.release_tag) :
  fst (fst (Release.getLatestRelease ch h resp)) = Some rel ->
  let suffix := if String.eqb (Release.platform h) "win32" then "zip" else "gz" in
  exists release pl a pre post,
    resp = Release.Body release /\ snd (Release.getLatestRelease ch h resp) = None /\
    fst (Release.getPlatform h) = Some pl /\
    Release.assets release = pre ++ a :: post /\
    Forall (fun v => Release.ends_with (Release.browser_download_url v)
                       (pl ++ "." ++ suffix) = false) pre /\
    Release.ends_with (Release.url rel) (pl ++ "." ++ suffix) = true /\
    Release.rasset rel = Some a /\
    Release.url rel = Release.browser_download_url a /\
    Release.tag rel = (if String.eqb ch "nightly"
                       then Release.tag_name release ++ " " ++
                            substring 0 10 (Release.published_at release)
                       else Release.tag_name release)%string /\
    Release.name rel = (if String.eqb (Release.platform h) "win32"
                        then "wgsl-analyzer.exe" else "wgsl-analyzer").
Proof.
  unfold Release.getLatestRelease.
  destruct resp as [e| |e|release]; cbn [fst]; try discriminate.
  destruct (Release.getPlatform h) as [[pl|] pevs] eqn:Hp; [|discriminate].
  match goal with |- context [find ?f ?l] => destruct (find f l) as [a|] eqn:Hf end;
    [|discriminate].
  intros H. injection H as <-. cbv zeta.
  destruct (find_first _ _ _ Hf) as (pre & post & Hl & Hpre & Ha).
  exists release, pl, a, pre, post. repeat split; auto.
Qed.

Lemma getLatestRelease_result_witness :
  exists release pl a pre post,
    Release.Body (Release.mkGithubRelease "v1" "2024-05-06T00:00:00Z"
            [Release.mkAsset "mac" "https://x/wgsl-analyzer-aarch64-apple-darwin.gz";
             Release.mkAsset "linux" "https://x/wgsl-analyzer-x86_64-unknown-linux-gnu.gz"])
      = Release.Body release /\
    snd (Release.getLatestRelease "nightly"
           (Release.mkHost "x64" "linux" (Some "ldd (GNU libc) 2.39"))
           (Release.Body (Release.mkGithubRelease "v1" "2024-05-06T00:00:00Z"
              [Release.mkAsset "mac" "https://x/wgsl-analyzer-aarch64-apple-darwin.gz";
               Release.mkAsset "linux" "https://x/wgsl-analyzer-x86_64-unknown-linux-gnu.gz"])))
      = None /\
    fst (Release.getPlatform (Release.mkHost "x64" "linux" (Some "ldd (GNU libc) 2.39")))
      = Some pl /\
    Release.assets release = pre ++ a :: post /\
    Forall (fun v => Release.ends_with (Release.browser_download_url v) (pl ++ "." ++ "gz") = false)
      pre /\
    Release.ends_with "https://x/wgsl-analyzer-x86_64-unknown-linux-gnu.gz" (pl ++ "." ++ "gz")
      = true /\
    Some (Release.mkAsset "linux" "https://x/wgsl-analyzer-x86_64-unknown-linux-gnu.gz") = Some a /\
    "https://x/wgsl-analyzer-x86_64-unknown-linux-gnu.gz" = Release.browser_download_url a /\
    "v1 2024-05-06" = (Release.tag_name release ++ " " ++
                        substring 0 10 (Release.published_at release))%string /\
    "wgsl-analyzer" = "wgsl-analyzer".
Proof.
  exact (getLatestRelease_result "nightly" (Release.mkHost "x64" "linux" (Some "ldd (GNU libc) 2.39"))
           (Release.Body (Release.mkGithubRelease "v1" "2024-05-06T00:00:00Z"
                    [Release.mkAsset "mac" "https://x/wgsl-analyzer-aarch64-apple-darwin.gz";
                     Release.mkAsset "linux" "https://x/wgsl-analyzer-x86_64-unknown-linux-gnu.gz"]))
           (Release.mkReleaseTag "v1 2024-05-06" "https://x/wgsl-analyzer-x86_64-unknown-linux-gnu.gz"
              "wgsl-analyzer"
              (Some (Release.mkAsset "linux" "https://x/wgsl-analyzer-x86_64-unknown-linux-gnu.gz")))
           eq_refl).
Defined.



Lemma getPlatform_musl_only_on_x64_linux_witness :
  fst (Release.getPlatform (Release.mkHost "riscv64" "linux" None)) = None.
Proof.
  exact (proj2 (proj2 (getPlatform_musl_only_on_x64_linux
                         (Release.mkHost "riscv64" "linux" None))) eq_refl).
Defined.

(** ** Update checks and server resolution *)

(** Case on an innermost [match] (or [if]) of a hypothesis or of the goal. *)
Ltac case_in H :=
  match type of H with
  | context [match ?x with _ => _ end] =>
      lazymatch x with
      | context [match _ with _ => _ end] => fail
      | _ => let E := fresh "E" in destruct x eqn:E
      end
  end.

Ltac case_goal :=
  match goal with
  | |- context [match ?x with _ => _ end] =>
      lazymatch x with
      | context [match _ with _ => _ end] => fail
      | _ => let E := fresh "E" in destruct x eqn:E
      end
  end.



(** Extra: [checkUpdate] changes nothing but the stored release, and
    changes it only to the tag of the release it has just downloaded, after
    the download succeeded and with no error left over. *)
Theorem checkUpdate_stores_only_downloaded (auto : bool) (c : Ctx.config) (st : Ctx.state)
  (h : Release.host) (resp : Release.response) (pick : Z)
  (dl : option (option string)) (evs : list Ctx.event) (st' : Ctx.state) (err : option error) :
  Ctx.checkUpdate auto c st h resp pick dl = (evs, st', err) ->
  Ctx.usingSystemServer st' = Ctx.usingSystemServer st /\ Ctx.client st' = Ctx.client st /\
  (Ctx.release st' <> Ctx.release st ->
   dl = None /\
   exists l, fst (fst (Release.getLatestRelease (Ctx.channel c) h resp)) = Some l /\
     Ctx.release st' = Some (Release.tag l) /\ In (Ctx.Download (Release.tag l)) evs /\
     (err = None \/ Release.platform h <> "win32")).
Proof.
  unfold Ctx.checkUpdate, Ctx.downloadServer, Ctx.restart_and_store, Ctx.client_stop.
  intros H. repeat case_in H.
  all: injection H as <- <- <-; cbn [fst Ctx.usingSystemServer Ctx.client Ctx.release Ctx.set_release].
  all: split; [congruence|split; [congruence|intros Hne]]; try congruence.
  all: split; [reflexivity|]; eexists; split; [reflexivity|]; split; [reflexivity|].
  all: split; [apply in_or_app; right; simpl; tauto|].
  all: first [left; reflexivity | right; apply String.eqb_neq; assumption].
Qed.

Lemma checkUpdate_stores_only_downloaded_witness :
  exists evs st' err,
    Ctx.checkUpdate false (ctx_config (Ctx.PBool true)) (ctx_state true (Some "2024-04-29"))
      linux_host (Release.Body sample_release) 0 None = (evs, st', err) /\
    Ctx.release st' = Some "2024-05-06" /\
    (Ctx.usingSystemServer st' = Ctx.usingSystemServer (ctx_state true (Some "2024-04-29")) /\
     Ctx.client st' = Ctx.client (ctx_state true (Some "2024-04-29")) /\
     (Ctx.release st' <> Ctx.release (ctx_state true (Some "2024-04-29")) ->
      None = @None (option string) /\
      exists l, fst (fst (Release.getLatestRelease "stable" linux_host (Release.Body sample_release)))
                  = Some l /\
        Ctx.release st' = Some (Release.tag l) /\ In (Ctx.Download (Release.tag l)) evs /\
        (err = None \/ Release.platform linux_host <> "win32"))).
Proof.
  do 3 eexists. split; [vm_compute; reflexivity|]. split; [vm_compute; reflexivity|].
  exact (checkUpdate_stores_only_downloaded false (ctx_config (Ctx.PBool true))
           (ctx_state true (Some "2024-04-29")) linux_host (Release.Body sample_release) 0 None
           _ _ _ eq_refl).
Defined.

Lemma surjective_pairing3 {A B C} (x : A * B * C) : x = (fst (fst x), snd (fst x), snd x).
Proof. destruct x as [[a b] c]. reflexivity. Qed.

Lemma proc_in (l : list Release.proc_event) (e : Ctx.event) :
  In e (map Ctx.Proc l) -> exists p, e = Ctx.Proc p.
Proof. rewrite in_map_iff. intros (x & Hx & _). eauto. Qed.

(** Split a hypothesis [In e (xs ++ ...)] into its cases and close those
    that cannot hold. *)
Ltac in_cases Hin :=
  cbn [fst snd] in Hin; rewrite ?in_app_iff in Hin; cbn [In] in Hin;
  repeat match type of Hin with _ \/ _ => destruct Hin as [Hin|Hin] end;
  try (apply proc_in in Hin; destruct Hin as (? & Hin));
  try discriminate Hin; try contradiction.

(** Extra: [checkUpdate] asks with a quick pick only when [updates.prompt]
    is exactly [true]; for a newer release (and a client it can stop on
    Windows) it downloads it exactly when the prompt is not [true] (so
    also for ['neverDownload']) or the first item was picked. *)
Theorem checkUpdate_downloads_when (auto : bool) (c : Ctx.config) (st : Ctx.state)
  (h : Release.host) (resp : Release.response) (pick : Z)
  (dl : option (option string)) (evs : list Ctx.event) (st' : Ctx.state) (err : option error) :
  Ctx.checkUpdate auto c st h resp pick dl = (evs, st', err) ->
  (forall items msg, In (Ctx.Quickpick items msg) evs -> Ctx.prompt c = Ctx.PBool true) /\
  (forall l pevs,
     Ctx.str_truthy (Ctx.serverPath c) = false -> Ctx.usingSystemServer st = false ->
     (auto = false \/ Ctx.checkOnStartup c = true) ->
     Release.getLatestRelease (Ctx.channel c) h resp = (Some l, pevs, None) ->
     Ctx.old_release st <> Release.tag l ->
     (Release.platform h <> "win32" \/ Ctx.client st = true) ->
     (In (Ctx.Download (Release.tag l)) evs <->
      Ctx.prompt c <> Ctx.PBool true \/ pick = 0%Z)).
Proof.
  intros H. split.
  - intros items msg Hin. revert H. unfold Ctx.checkUpdate, Ctx.downloadServer,
      Ctx.restart_and_store, Ctx.client_stop.
    intros H. repeat case_in H.
    all: injection H as <- <- <-.
    all: try reflexivity.
    all: in_cases Hin.
  - intros l pevs Hp Hs Ha Hl Ho Hw. revert H.
    unfold Ctx.checkUpdate, Ctx.downloadServer, Ctx.restart_and_store, Ctx.client_stop.
    rewrite Hp, Hs, Hl. cbn [orb].
    replace (auto && negb (Ctx.checkOnStartup c)) with false
      by (destruct Ha as [Ha|Ha]; rewrite Ha; [reflexivity|symmetry; apply andb_false_r]).
    apply String.eqb_neq in Ho. cbv iota. rewrite Ho.
    intros H. repeat case_in H.
    all: injection H as <- <- <-; split; intros Hin.
    all: try (in_cases Hin; fail).
    all: try (rewrite ?in_app_iff; cbn [In]; tauto).
    all: rewrite ?Z.eqb_eq, ?Z.eqb_neq, ?String.eqb_eq, ?String.eqb_neq in *.
    all: try (right; assumption).
    all: try (left; congruence).
    all: try (destruct Hw; congruence).
    all: try (exfalso; match goal with E : (0 =? 0)%Z = false |- _ => discriminate E end).
    all: destruct Hin; congruence.
Qed.

Lemma checkUpdate_downloads_when_witness :
  In (Ctx.Download "2024-05-06")
    (fst (fst (Ctx.checkUpdate true (ctx_config Ctx.PNeverDownload)
                 (ctx_state true (Some "2024-04-29")) linux_host (Release.Body sample_release)
                 (-1) None))).
Proof.
  destruct (checkUpdate_downloads_when true (ctx_config Ctx.PNeverDownload)
              (ctx_state true (Some "2024-04-29")) linux_host (Release.Body sample_release) (-1) None
              _ _ _ (surjective_pairing3 _)) as [_ H2].
  apply (H2 linux_tag [Release.Fetch Release.stable_url; Release.SpawnSync "ldd" ["--version"]]).
  - reflexivity.
  - reflexivity.
  - right; reflexivity.
  - vm_compute; reflexivity.
  - intros E; vm_compute in E; discriminate E.
  - left; discriminate.
  - left; discriminate.
Defined.



(** Extra: [installServerFromGitHub] downloads whatever release
    [getLatestRelease] finds, whatever the stored release (when it can stop
    the client on Windows). A failed download leaves the state unchanged
    and ends with the install-failure message for the error's code; a
    successful one stores the tag, even when the client is missing outside
    Windows: the following [this.client.stop()] then throws a [TypeError],
    and it throws nothing when the client is there. *)
Theorem installServerFromGitHub_outcome (c : Ctx.config) (st : Ctx.state)
  (h : Release.host) (resp : Release.response) (dl : option (option string))
  (l : Release.release_tag) (pevs : list Release.proc_event)
  (evs : list Ctx.event) (st' : Ctx.state) (err : option error) :
  Release.getLatestRelease (Ctx.channel c) h resp = (Some l, pevs, None) ->
  (Release.platform h <> "win32" \/ Ctx.client st = true) ->
  Ctx.installServerFromGitHub c st h resp dl = (evs, st', err) ->
  In (Ctx.Download (Release.tag l)) evs /\
  (forall code, dl = Some code ->
     st' = st /\ err = None /\
     exists pre, evs = pre ++ [Ctx.ShowInfo (Ctx.install_failed code) (Some "error")]) /\
  (dl = None ->
     Ctx.release st' = Some (Release.tag l) /\
     Ctx.usingSystemServer st' = Ctx.usingSystemServer st /\
     ((Ctx.client st = true /\ err = None) \/
      (Ctx.client st = false /\ err = Some ETypeError))).
Proof.
  intros Hl Hw. unfold Ctx.installServerFromGitHub, Ctx.downloadServer,
    Ctx.restart_and_store, Ctx.client_stop.
  rewrite Hl. cbv iota. intros H. repeat case_in H.
  all: try (destruct Hw as [Hw|Hw]; [apply String.eqb_neq in Hw|]; congruence).
  all: injection H as <- <- <-.
  all: split; [rewrite in_app_iff; right; simpl; intuition|].
  all: split; [intros code Hd; first
                 [ discriminate Hd
                 | injection Hd as <-;
                   split; [reflexivity|split; [reflexivity|]];
                   match goal with
                   | |- exists pre, ?l ++ ?xs = pre ++ [?x] =>
                       exists (l ++ removelast xs); rewrite <- app_assoc; reflexivity
                   end ]|].
  all: intros Hd; try discriminate Hd.
  all: cbn [Ctx.release Ctx.usingSystemServer Ctx.client Ctx.set_release] in *.
  all: split; [first [reflexivity | apply String.eqb_neq in Hw; congruence
                     | destruct Hw as [Hw|Hw]; [apply String.eqb_neq in Hw|]; congruence]|].
  all: split; [reflexivity|].
  all: first [left; split; congruence | right; split; congruence].
Qed.

Lemma installServerFromGitHub_outcome_witness :
  let r := Ctx.installServerFromGitHub (ctx_config (Ctx.PBool true)) (ctx_state false None)
             linux_host (Release.Body sample_release) None in
  In (Ctx.Download (Release.tag linux_tag)) (fst (fst r)) /\
  Ctx.release (snd (fst r)) = Some (Release.tag linux_tag) /\
  ((Ctx.client (ctx_state false None) = true /\ snd r = None) \/
   (Ctx.client (ctx_state false None) = false /\ snd r = Some ETypeError)).
Proof.
  intros r.
  assert (Hl : Release.getLatestRelease (Ctx.channel (ctx_config (Ctx.PBool true))) linux_host
                 (Release.Body sample_release) =
               (Some linux_tag,
                [Release.Fetch Release.stable_url; Release.SpawnSync "ldd" ["--version"]], None))
    by (vm_compute; reflexivity).
  assert (Hw : Release.platform linux_host <> "win32" \/ Ctx.client (ctx_state false None) = true)
    by (left; discriminate).
  destruct (installServerFromGitHub_outcome (ctx_config (Ctx.PBool true)) (ctx_state false None)
              linux_host (Release.Body sample_release) None linux_tag
              [Release.Fetch Release.stable_url; Release.SpawnSync "ldd" ["--version"]]
              (fst (fst r)) (snd (fst r)) (snd r) Hl Hw (surjective_pairing3 r))
    as (Hin & _ & Hok).
  destruct (Hok eq_refl) as (Hrel & _ & Herr).
  split; [exact Hin|]. split; [exact Hrel|exact Herr].
Defined.

Lemma length_pos_nonempty (s : string) : (0 <? String.length s)%nat = true <-> s <> "".
Proof.
  destruct s; simpl; split.
  - discriminate.
  - intros H. exfalso. apply H. reflexivity.
  - intros _. discriminate.
  - reflexivity.
Qed.

(** Extra: [resolveBin] either returns a path it found to exist (or
    nothing) without running anything, without changing the state and
    without throwing, or runs [--version] on the [wgsl-analyzer] found on
    [PATH]. It then throws a [TypeError] when that process could not be
    spawned (its stderr is [null]), and otherwise accepts it exactly when
    the trimmed stderr is empty, in which case it records that the system
    server is in use. *)
Theorem resolveBin_outcomes (c : Ctx.config) (st : Ctx.state) (h : Release.host)
  (e : Ctx.env) (r : option string) (st' : Ctx.state) (evs : list Release.proc_event)
  (err : option error) :
  Ctx.resolveBin c st h e = (r, st', evs, err) ->
  (evs = [] /\ st' = st /\ err = None /\
   (r = None \/ exists b, r = Some b /\ Ctx.existsSync e b = true)) \/
  (exists sb, Ctx.which e (Ctx.executableName h) = Some sb /\ sb <> "" /\
     evs = [Release.SpawnSync sb ["--version"]] /\
     ((Ctx.version_stderr e sb = None /\ r = None /\ st' = st /\ err = Some ETypeError) \/
      (exists stderr, Ctx.version_stderr e sb = Some stderr /\ err = None /\
       ((Ctx.trim stderr <> "" /\ r = None /\ st' = st) \/
        (Ctx.trim stderr = "" /\ r = Some sb /\ st' = Ctx.set_system st))))).
Proof.
  unfold Ctx.resolveBin. cbv zeta.
  set (bin := if Ctx.str_truthy (Ctx.serverPath c) then _ else _).
  destruct (Ctx.existsSync e bin) eqn:Hex.
  { intros H. injection H as <- <- <- <-. left. eauto 7. }
  destruct (Ctx.which e (Ctx.executableName h)) as [sb|] eqn:Hw; cbn [Ctx.str_truthy].
  2: { intros H. injection H as <- <- <- <-. left. auto. }
  destruct (String.eqb_spec sb "") as [Hsb|Hsb]; cbn [negb].
  { intros H. injection H as <- <- <- <-. left. auto. }
  destruct (Ctx.version_stderr e sb) as [stderr|] eqn:Hv.
  2: { intros H. injection H as <- <- <- <-. right. exists sb. repeat split; auto. }
  destruct (0 <? String.length (Ctx.trim stderr))%nat eqn:Hl;
    intros H; injection H as <- <- <- <-; right; exists sb; repeat split; auto;
    right; exists stderr; repeat split; auto.
  - left. apply length_pos_nonempty in Hl. auto.
  - right. split; [|auto].
    destruct (Ctx.trim stderr); [reflexivity|discriminate].
Qed.

Lemma resolveBin_outcomes_witness :
  exists sb,
    Ctx.which system_env (Ctx.executableName linux_host) = Some sb /\ sb <> "" /\
    [Release.SpawnSync "/usr/bin/wgsl-analyzer" ["--version"]] =
      [Release.SpawnSync sb ["--version"]] /\
    ((Ctx.version_stderr system_env sb = None /\ Some "/usr/bin/wgsl-analyzer" = None /\
      Ctx.set_system (ctx_state true None) = ctx_state true None /\ @None error = Some ETypeError) \/
     (exists stderr, Ctx.version_stderr system_env sb = Some stderr /\ @None error = None /\
      ((Ctx.trim stderr <> "" /\ Some "/usr/bin/wgsl-analyzer" = None /\
        Ctx.set_system (ctx_state true None) = ctx_state true None) \/
       (Ctx.trim stderr = "" /\ Some "/usr/bin/wgsl-analyzer" = Some sb /\
        Ctx.set_system (ctx_state true None) = Ctx.set_system (ctx_state true None))))).
Proof.
  destruct (resolveBin_outcomes (Ctx.mkConfig None None true (Ctx.PBool true) "stable")
              (ctx_state true None) linux_host system_env
              (Some "/usr/bin/wgsl-analyzer") (Ctx.set_system (ctx_state true None))
              [Release.SpawnSync "/usr/bin/wgsl-analyzer" ["--version"]] None
              (ltac:(vm_compute; reflexivity))) as [(Hev & _)|H].
  - discriminate Hev.
  - exact H.
Defined.

(** Extra: once [resolveBin] has accepted the server found on [PATH]
    (it ran [--version]), neither the automatic nor the manual
    [checkUpdate] does anything. *)
Theorem resolveBin_system_disables_updates (c : Ctx.config) (st : Ctx.state)
  (h : Release.host) (e : Ctx.env) (b : string) (st' : Ctx.state)
  (evs : list Release.proc_event) (err : option error) (auto : bool)
  (resp : Release.response) (pick : Z) (dl : option (option string)) :
  Ctx.resolveBin c st h e = (Some b, st', evs, err) -> evs <> [] ->
  Ctx.checkUpdate auto c st' h resp pick dl = ([], st', None).
Proof.
  intros H Hne.
  assert (Hsys : Ctx.usingSystemServer st' = true).
  { revert H. unfold Ctx.resolveBin. cbv zeta.
    destruct (Ctx.existsSync e _); [intros H; injection H as _ _ <-; congruence|].
    destruct (Ctx.str_truthy (Ctx.which e (Ctx.executableName h)));
      [|intros H; discriminate H].
    destruct (Ctx.version_stderr e _); [|intros H; discriminate H].
    destruct (0 <? _)%nat; intros H; [discriminate H|].
    injection H as _ <- _. reflexivity. }
  unfold Ctx.checkUpdate. rewrite Hsys, orb_true_r. reflexivity.
Qed.

Lemma resolveBin_system_disables_updates_witness :
  Ctx.checkUpdate false (Ctx.mkConfig None None true (Ctx.PBool true) "stable")
    (Ctx.set_system (ctx_state true None)) linux_host (Release.Body sample_release) 0 None =
  ([], Ctx.set_system (ctx_state true None), None).
Proof.
  apply (resolveBin_system_disables_updates (Ctx.mkConfig None None true (Ctx.PBool true) "stable")
           (ctx_state true None) linux_host system_env "/usr/bin/wgsl-analyzer"
           (Ctx.set_system (ctx_state true None))
           [Release.SpawnSync "/usr/bin/wgsl-analyzer" ["--version"]] None).
  - vm_compute. reflexivity.
  - discriminate.
Defined.

(** Extra: a configured server path that [which] resolves to an existing
    file is returned as is, without running anything; one that [which]
    cannot resolve, or a [server.path] set to the empty string (which also
    hides the older [serverPath] setting), behaves as if no path had been
    configured. *)
Theorem resolveBin_configured_path (c : Ctx.config) (st : Ctx.state) (h : Release.host)
  (e : Ctx.env) (sp : string) :
  Ctx.serverPath c = Some sp ->
  (forall b, sp <> "" -> Ctx.which e (Ctx.expand e sp) = Some b -> b <> "" ->
     Ctx.existsSync e b = true -> Ctx.resolveBin c st h e = (Some b, st, [], None)) /\
  (Ctx.which e (Ctx.expand e sp) = None ->
     Ctx.resolveBin c st h e = Ctx.resolveBin (without_server_path c) st h e) /\
  (Ctx.server_path c = Some "" ->
     Ctx.resolveBin c st h e = Ctx.resolveBin (without_server_path c) st h e).
Proof.
  intros Hsp. unfold Ctx.resolveBin. cbv zeta. rewrite Hsp.
  cbn [Ctx.serverPath without_server_path Ctx.server_path Ctx.legacy_serverPath Ctx.str_truthy].
  repeat split.
  - intros b Hne Hw Hb Hex.
    apply String.eqb_neq in Hne. apply String.eqb_neq in Hb.
    rewrite Hne, Hw. cbn [negb Ctx.str_truthy]. rewrite Hb. cbn [negb]. rewrite Hex. reflexivity.
  - intros Hw. rewrite Hw. cbn [Ctx.str_truthy]. destruct (negb _); reflexivity.
  - intros Hs. unfold Ctx.serverPath in Hsp. rewrite Hs in Hsp. injection Hsp as <-.
    reflexivity.
Qed.

Lemma resolveBin_configured_path_witness :
  Ctx.resolveBin (Ctx.mkConfig None (Some "~/bin/wa") true (Ctx.PBool true) "stable")
    (ctx_state true None) linux_host system_env =
  Ctx.resolveBin (without_server_path (Ctx.mkConfig None (Some "~/bin/wa") true (Ctx.PBool true) "stable"))
    (ctx_state true None) linux_host system_env.
Proof.
  apply (proj1 (proj2 (resolveBin_configured_path
                         (Ctx.mkConfig None (Some "~/bin/wa") true (Ctx.PBool true) "stable")
                         (ctx_state true None) linux_host system_env "~/bin/wa" eq_refl))).
  vm_compute. reflexivity.
Defined.

(** ** String splitting *)

Lemma substring_add (s : string) (i n m : nat) :
  substring i (n + m) s = (substring i n s ++ substring (i + n) m s)%string.
Proof.
  revert i n m. induction s as [|a s IH]; intros i n m.
  - destruct i, n, m; reflexivity.
  - destruct i as [|i].
    + destruct n as [|n]; [reflexivity|]. cbn [Nat.add substring].
      rewrite (IH 0 n m). reflexivity.
    + cbn [Nat.add substring]. apply IH.
Qed.

Lemma substring_all (s : string) : substring 0 (String.length s) s = s.
Proof. induction s as [|a s IH]; [reflexivity|]. cbn. rewrite IH. reflexivity. Qed.

Lemma substring_length (s : string) (i n : nat) :
  String.length (substring i n s) = Nat.min n (String.length s - i).
Proof.
  revert i n. induction s as [|a s IH]; intros i n.
  - destruct i, n; cbn; lia.
  - destruct i as [|i].
    + destruct n as [|n]; [reflexivity|]. cbn [substring String.length].
      rewrite IH. cbn. lia.
    + cbn [substring String.length]. rewrite IH. reflexivity.
Qed.

Lemma substring_of_prefix (s : string) (p n i : nat) :
  p + n <= i -> substring p n (substring 0 i s) = substring p n s.
Proof.
  revert p n i. induction s as [|a s IH]; intros p n i H.
  - destruct i; reflexivity.
  - destruct i as [|i].
    + assert (p = 0 /\ n = 0) as [-> ->] by lia. reflexivity.
    + cbn [substring]. destruct p as [|p].
      * destruct n as [|n]; [reflexivity|]. cbn [substring]. rewrite IH by lia. reflexivity.
      * apply IH. lia.
Qed.

Lemma index_split (sep s : string) (i : nat) :
  sep <> ""%string -> String.index 0 sep s = Some i ->
  i + String.length sep <= String.length s /\
  s = (substring 0 i s ++ sep ++
       substring (i + String.length sep) (String.length s - (i + String.length sep)) s)%string.
Proof.
  intros Hne Hi. pose proof (index_correct1 _ _ _ _ Hi) as Hsub.
  assert (Hlen : i + String.length sep <= String.length s).
  { pose proof (substring_length s i (String.length sep)) as L. rewrite Hsub in L.
    destruct sep; [congruence|]. cbn [String.length] in *. lia. }
  split; [exact Hlen|].
  remember (String.length sep) as n eqn:Hn.
  rewrite <- Hsub at 1.
  rewrite <- substring_add, <- (Nat.add_0_l i) at 1. rewrite <- substring_add.
  replace (0 + i + (n + (String.length s - (i + n)))) with (String.length s) by lia.
  symmetry. apply substring_all.
Qed.

Lemma split_fuel_nonempty (f : nat) (sep s : string) : Diag.split_fuel f sep s <> [].
Proof. destruct f; cbn; [discriminate|]. destruct (String.index 0 sep s); discriminate. Qed.

Lemma split_fuel_concat (f : nat) (sep s : string) :
  sep <> ""%string -> String.concat sep (Diag.split_fuel f sep s) = s.
Proof.
  intros Hne. revert s. induction f as [|f IH]; intros s; [reflexivity|].
  cbn [Diag.split_fuel]. destruct (String.index 0 sep s) as [i|] eqn:Hi; [|reflexivity].
  destruct (index_split sep s i Hne Hi) as [_ Hs].
  pose proof (split_fuel_nonempty f sep
                (substring (i + String.length sep) (String.length s - (i + String.length sep)) s))
    as Hn.
  destruct (Diag.split_fuel f sep _) as [|x xs] eqn:Hsp; [contradiction|].
  change (String.concat sep (substring 0 i s :: x :: xs))
    with (substring 0 i s ++ sep ++ String.concat sep (x :: xs))%string.
  rewrite <- Hsp, IH. symmetry. exact Hs.
Qed.

Lemma split_fuel_pieces (f : nat) (sep s : string) :
  sep <> ""%string -> S (String.length s) <= f ->
  Forall (fun piece => String.index 0 sep piece = None) (Diag.split_fuel f sep s).
Proof.
  intros Hne. revert s. induction f as [|f IH]; intros s Hf; [lia|].
  cbn [Diag.split_fuel]. destruct (String.index 0 sep s) as [i|] eqn:Hi; [|auto].
  destruct (index_split sep s i Hne Hi) as [Hlen _].
  constructor.
  - destruct (String.index 0 sep (substring 0 i s)) as [m|] eqn:Hm; [|reflexivity].
    exfalso. pose proof (index_correct1 _ _ _ _ Hm) as Hsub.
    pose proof (substring_length (substring 0 i s) m (String.length sep)) as L.
    rewrite Hsub, substring_length, Nat.sub_0_r in L.
    assert (Hm' : m + String.length sep <= i).
    { destruct sep as [|a sep']; [congruence|].
      assert (E : Nat.min i (String.length s) = i) by (apply Nat.min_l; lia).
      rewrite E in L.
      destruct (Nat.min_spec (String.length (String a sep')) (i - m)) as [[? E2]|[? E2]];
        rewrite E2 in L; cbn [String.length] in *; lia. }
    rewrite substring_of_prefix in Hsub by exact Hm'.
    apply (index_correct2 _ _ _ _ Hi m); [lia| |exact Hsub].
    destruct sep; [congruence|]. cbn [String.length] in Hm'. lia.
  - apply IH. rewrite substring_length.
    destruct sep; [congruence|]. cbn [String.length] in *. lia.
Qed.

Lemma docs_of_content (b : bool) (parts : list string) :
  map Diag.content (Diag.docs_of b parts) = parts.
Proof. revert b. induction parts as [|p ps IH]; intros b; cbn; [reflexivity|]. rewrite IH. reflexivity. Qed.

Lemma docs_of_filetype (b : bool) (parts : list string) (k : nat) (d : Diag.documentation) :
  nth_error (Diag.docs_of b parts) k = Some d ->
  Diag.filetype d = if xorb b (Nat.odd k) then "wgsl" else "markdown".
Proof.
  revert b k. induction parts as [|p ps IH]; intros b k H; [destruct k; discriminate|].
  destruct k as [|k]; cbn in H.
  - injection H as <-. destruct b; reflexivity.
  - rewrite (IH _ _ H). rewrite Nat.odd_succ, <- Nat.negb_odd.
    destruct b, (Nat.odd k); reflexivity.
Qed.

(** ** Diagnostics and explanations *)

(** Extra: the float of [explainError] cuts the explanation at each
    code fence: no part contains the fence, joining the parts with it gives
    the explanation back, and the parts are shown alternately as markdown
    (first, third, ...) and WGSL. *)
Theorem explain_docs_roundtrip (explanation : string) :
  let docs := Diag.docs_of false (Diag.split Diag.code_fence explanation) in
  docs <> [] /\
  String.concat Diag.code_fence (map Diag.content docs) = explanation /\
  Forall (fun d => String.index 0 Diag.code_fence (Diag.content d) = None) docs /\
  (forall k d, nth_error docs k = Some d ->
     Diag.filetype d = if Nat.odd k then "wgsl" else "markdown").
Proof.
  cbv zeta. unfold Diag.split.
  assert (Hne : Diag.code_fence <> ""%string) by discriminate.
  repeat split.
  - pose proof (split_fuel_nonempty (S (String.length explanation)) Diag.code_fence explanation).
    destruct (Diag.split_fuel _ _ _); [contradiction|]. discriminate.
  - rewrite docs_of_content. apply split_fuel_concat. exact Hne.
  - pose proof (split_fuel_pieces (S (String.length explanation)) Diag.code_fence explanation
                  Hne (le_n _)) as Hp.
    apply (proj1 (Forall_map Diag.content
                    (fun piece => String.index 0 Diag.code_fence piece = None) _)).
    rewrite docs_of_content. exact Hp.
  - intros k d Hk. rewrite (docs_of_filetype _ _ _ _ Hk). reflexivity.
Qed.

(** Extra: [explainError] explains only in a WGSL document, and only the
    first diagnostic (in the client's order) that [isInRange] places
    under the cursor, when its code is truthy (a code 0 or an empty code
    is never explained); it then runs [wgpu --explain <code>] once. When
    [wgpu] could not be spawned its stdout is [null] and [.toString()]
    throws a [TypeError]; otherwise it shows the float built from that
    output. *)
Theorem explainError_first_diagnostic (is_wgsl : bool) (diags : option (list Diag.diagnostic))
  (p : Diag.position) (explanation_of : string -> option string) :
  fst (Diag.explainError is_wgsl diags p explanation_of) <> [] ->
  is_wgsl = true /\
  exists ds pre d post c,
    diags = Some ds /\ ds = pre ++ d :: post /\
    Forall (fun d' => Diag.isInRange (Diag.drange d') p = false) pre /\
    Diag.isInRange (Diag.drange d) p = true /\
    Diag.code d = Some c /\ Diag.code_truthy (Some c) = true /\
    (explanation_of (Diag.code_string c) = None ->
     Diag.explainError is_wgsl diags p explanation_of =
       ([Diag.SpawnWgpu ["--explain"; Diag.code_string c]], Some ETypeError)) /\
    (forall explanation, explanation_of (Diag.code_string c) = Some explanation ->
     Diag.explainError is_wgsl diags p explanation_of =
       ([Diag.SpawnWgpu ["--explain"; Diag.code_string c];
         Diag.ShowFloat (Diag.docs_of false (Diag.split Diag.code_fence explanation))], None)).
Proof.
  unfold Diag.explainError.
  destruct is_wgsl; [|intros H; contradiction H; reflexivity]. cbn [negb].
  destruct diags as [ds|]; [|intros H; contradiction H; reflexivity].
  destruct (find _ ds) as [d|] eqn:Hf; [|intros H; contradiction H; reflexivity].
  destruct (Diag.code_truthy (Diag.code d)) eqn:Hc; [|intros H; contradiction H; reflexivity].
  intros _. split; [reflexivity|].
  destruct (find_first _ _ _ Hf) as (pre & post & Hds & Hpre & Hin).
  destruct (Diag.code d) as [c|] eqn:Hcode; [|discriminate Hc].
  exists ds, pre, d, post, c. repeat split; auto.
  - intros He. rewrite He. reflexivity.
  - intros explanation He. rewrite He. reflexivity.
Qed.

Lemma explainError_first_diagnostic_witness :
  exists c,
    Diag.code_truthy (Some c) = true /\
    Diag.explainError true
      (Some [Diag.mkDiagnostic (Diag.mkRange (Diag.mkPosition 0 0) (Diag.mkPosition 9 3))
               (Some (Diag.CNum 12))])
      (Diag.mkPosition 1 2) (fun _ => None) =
    ([Diag.SpawnWgpu ["--explain"; Diag.code_string c]], Some ETypeError).
Proof.
  destruct (explainError_first_diagnostic true
              (Some [Diag.mkDiagnostic (Diag.mkRange (Diag.mkPosition 0 0) (Diag.mkPosition 9 3))
                       (Some (Diag.CNum 12))])
              (Diag.mkPosition 1 2) (fun _ => None) ltac:(vm_compute; discriminate))
    as (_ & ds & pre & d & post & c & _ & _ & _ & _ & _ & Hc & H & _).
  exists c. split; [exact Hc | exact (H eq_refl)].
Defined.

Lemma explain_docs_roundtrip_witness :
  Diag.filetype (Diag.mkDoc "fn main() {}" "wgsl") = "wgsl".
Proof.
  exact (proj2 (proj2 (proj2 (explain_docs_roundtrip
           ("Example:" ++ Diag.code_fence ++ "fn main() {}")%string)))
           1 (Diag.mkDoc "fn main() {}" "wgsl") (ltac:(vm_compute; reflexivity))).
Defined.

(** ** testCurrent and echoRunCommandLine *)

(** Extra: [testCurrent] never asks with a quick pick. Outside a WGSL
    document, or when the server has no runnables, it shows
    'No runnables found' (outside a WGSL document without asking the
    server). Otherwise it runs the first runnable whose label starts with
    'webby test', and nothing when there is none. *)
Theorem testCurrent_first_test (e : editor) :
  (forall labels, ~ In (ShowQuickpick labels) (fst (Commands.testCurrent e))) /\
  (doc_is_wgsl e = false ->
   Commands.testCurrent e = ([ShowInformation "No runnables found"], None)) /\
  (doc_is_wgsl e = true -> server_runnables e = [] ->
   Commands.testCurrent e =
     ([ShowInformation "Fetching runnable..."; SendRunnablesRequest;
       ShowInformation "No runnables found"], None)) /\
  (forall r, snd (Commands.testCurrent e) = Some r ->
   doc_is_wgsl e = true /\
   exists pre post, server_runnables e = pre ++ r :: post /\
     String.prefix "webby test" (label r) = true /\
     Forall (fun r' => String.prefix "webby test" (label r') = false) pre) /\
  (Forall (fun r' => String.prefix "webby test" (label r') = false) (server_runnables e) ->
   snd (Commands.testCurrent e) = None).
Proof.
  unfold Commands.testCurrent, fetch_runnable.
  destruct (doc_is_wgsl e) eqn:Hw; cbn [negb];
    [destruct (server_runnables e) as [|r0 rs] eqn:Hr|].
  all: split; [intros labels Hin; in_cases Hin|].
  all: split; [intros H; try discriminate H; reflexivity|].
  all: split; [intros H1 H2; try discriminate H1; try discriminate H2; reflexivity|].
  all: split; [intros r H; cbn [snd] in H; try discriminate H|].
  - intros _. reflexivity.
  - split; [reflexivity|]. destruct (find_first _ _ _ H) as (pre & post & Hl & Hpre & Hx).
    exists pre, post. auto.
  - intros Hall. cbn [snd].
    destruct (find _ (r0 :: rs)) as [x|] eqn:Hf; [|reflexivity].
    exfalso. destruct (find_first _ _ _ Hf) as (pre & post & Hl & _ & Hx).
    rewrite Hl in Hall. apply Forall_app in Hall as [_ Hall]. inversion Hall. congruence.
  - intros _. reflexivity.
Qed.

Lemma testCurrent_first_test_witness :
  Commands.testCurrent (mkEditor false [webby_run []] 0) =
    ([ShowInformation "No runnables found"], None).
Proof.
  exact (proj1 (proj2 (testCurrent_first_test (mkEditor false [webby_run []] 0))) eq_refl).
Defined.

Lemma join_cons (x : string) (xs : list string) :
  Runnable.join (x :: xs) = match xs with [] => x | _ => (x ++ " " ++ Runnable.join xs)%string end.
Proof. destruct xs; reflexivity. Qed.

(** Extra: [echoRunCommandLine] prints the same arguments as [runSingle]
    (and leaves the runnable in the same state), but always after the word
    'webby': for a webby runnable the two lines agree exactly when there is
    at least one argument (with none, [runSingle]'s line has a trailing
    space), and for a shell runnable they never agree. It shows what
    [pickRunnable] shows and echoes the line of the picked runnable. *)
Theorem echoRunCommandLine_vs_runSingle (r : runnable) (e : editor) :
  snd (Commands.echo_line r) = snd (run_command r) /\
  (Runnable.kind r = "webby" ->
   (fst (Commands.echo_line r) = fst (run_command r) <-> fst (build_args r) <> [])) /\
  (Runnable.kind r = "shell" -> fst (Commands.echo_line r) <> fst (run_command r)) /\
  fst (Commands.echoRunCommandLine e) = fst (pick_runnable e) /\
  (forall r', snd (pick_runnable e) = Ok (Some r') ->
   snd (Commands.echoRunCommandLine e) = Ok (Some (fst (Commands.echo_line r')))).
Proof.
  unfold Commands.echo_line, run_command.
  destruct (build_args r) as [args r'] eqn:Hb. cbn [fst snd].
  split; [reflexivity|]. split; [|split; [|split]].
  - intros Hk. rewrite Hk, join_cons. destruct args as [|a args]; split.
    + intros H. discriminate H.
    + intros H. contradiction H. reflexivity.
    + intros _. discriminate.
    + intros _. reflexivity.
  - intros Hk. rewrite Hk, join_cons. destruct args; discriminate.
  - unfold Commands.echoRunCommandLine. destruct (pick_runnable e). reflexivity.
  - intros r0 H. unfold Commands.echoRunCommandLine.
    destruct (pick_runnable e) as [evs res]. cbn [snd] in *. subst res. reflexivity.
Qed.

Lemma echoRunCommandLine_vs_runSingle_witness :
  fst (Commands.echo_line (shell_runnable "webby" ["build"])) <>
  fst (run_command (shell_runnable "webby" ["build"])).
Proof.
  exact (proj1 (proj2 (proj2 (echoRunCommandLine_vs_runSingle (shell_runnable "webby" ["build"])
                                (mkEditor true [] 0)))) eq_refl).
Defined.

(** ** Configuration changes *)

Lemma string_app_assoc (a b c : string) : ((a ++ b) ++ c)%string = (a ++ b ++ c)%string.
Proof. induction a as [|x a IH]; cbn; [reflexivity|]. rewrite IH. reflexivity. Qed.

(** Extra: [onConfigChange] always reloads the configuration first. It
    runs [wgsl-analyzer.reload] exactly when one of the options that
    require a reload is affected and either [restartServerOnConfigChange]
    is [true] or the user accepts the prompt. The prompt is shown only
    when that setting is not [true]; it names the first affected option,
    in the order server, webby, files, updates, lens, inlayHints. *)
Theorem onConfigChange_reload (affects : string -> bool) (restart : option bool) (answer : bool) :
  let evs := ConfigChange.onConfigChange affects restart answer in
  hd_error evs = Some (ConfigChange.GetConfiguration "wgsl-analyzer") /\
  (In (ConfigChange.ExecuteCommand "wgsl-analyzer.reload") evs <->
   (exists o, In o ConfigChange.requiresReloadOpts /\ affects o = true) /\
   (restart = Some true \/ answer = true)) /\
  (forall msg, In (ConfigChange.ShowPrompt msg) evs ->
   restart <> Some true /\
   exists pre o post, ConfigChange.requiresReloadOpts = pre ++ o :: post /\
     affects o = true /\ Forall (fun o' => affects o' = false) pre /\
     msg = ("Changing " ++ String (ascii_of_nat 34) EmptyString ++ o ++
            String (ascii_of_nat 34) EmptyString ++ " requires a reload. Reload now?")%string).
Proof.
  cbv zeta. unfold ConfigChange.onConfigChange.
  destruct (find affects ConfigChange.requiresReloadOpts) as [o|] eqn:Hf.
  - destruct (find_first _ _ _ Hf) as (pre & post & Hl & Hpre & Ho).
    assert (Hrestart : restart = Some true \/ restart <> Some true)
      by (destruct restart as [[|]|]; [left; reflexivity|right; discriminate|right; discriminate]).
    destruct Hrestart as [->|Hr].
    + cbn [hd_error app In]. split; [reflexivity|]. split.
      * split; [intros _|intros _; auto].
        split; [|left; reflexivity]. exists o. rewrite Hl. split; [apply in_or_app; right; left; reflexivity|exact Ho].
      * intros msg Hin. destruct Hin as [H|[H|H]]; try discriminate H; contradiction.
    + replace (match restart with Some true => true | _ => false end) with false
        by (destruct restart as [[|]|]; [contradiction Hr; reflexivity|reflexivity|reflexivity]).
      destruct answer; cbn [hd_error app In].
      * split; [reflexivity|]. split.
        -- split; [intros _|intros _; auto].
           split; [|right; reflexivity]. exists o. rewrite Hl.
           split; [apply in_or_app; right; left; reflexivity|exact Ho].
        -- intros msg Hin. destruct Hin as [H|[H|[H|H]]]; try discriminate H; try contradiction.
           injection H as <-. split; [exact Hr|]. exists pre, o, post.
           repeat split; auto. cbn [append]. rewrite string_app_assoc. reflexivity.
      * split; [reflexivity|]. split.
        -- split; [intros [H|[H|H]]; try discriminate H; contradiction|].
           intros [_ [H|H]]; [contradiction|discriminate].
        -- intros msg Hin. destruct Hin as [H|[H|H]]; try discriminate H; try contradiction.
           injection H as <-. split; [exact Hr|]. exists pre, o, post.
           repeat split; auto. cbn [append]. rewrite string_app_assoc. reflexivity.
  - cbn [hd_error app In]. split; [reflexivity|]. split.
    + split; [intros [H|H]; [discriminate H|contradiction]|].
      intros [(o & Hin & Ho) _]. apply find_none in Hf.
      rewrite Forall_forall in Hf. rewrite (Hf o Hin) in Ho. discriminate.
    + intros msg [H|H]; [discriminate H|contradiction].
Qed.

Lemma onConfigChange_reload_witness :
  In (ConfigChange.ExecuteCommand "wgsl-analyzer.reload")
    (ConfigChange.onConfigChange (fun o => String.eqb o "wgsl-analyzer.lens") None true).
Proof.
  apply (proj2 (proj1 (proj2 (onConfigChange_reload
                                (fun o => String.eqb o "wgsl-analyzer.lens") None true)))).
  split; [|right; reflexivity].
  exists "wgsl-analyzer.lens". split; [cbn; tauto|reflexivity].
Defined.

(** ** Snippet edits *)

Lemma fold_edit_step_snd (edits : list Snippet.text_edit) acc :
  snd (fold_left Snippet.edit_step edits acc) = snd acc ++ map Snippet.cleaned edits.
Proof.
  revert acc. induction edits as [|i is IH]; intros acc; cbn [fold_left map].
  - rewrite app_nil_r. reflexivity.
  - rewrite IH. cbn [Snippet.edit_step snd]. rewrite <- app_assoc. reflexivity.
Qed.

Lemma fold_edit_step_none (edits : list Snippet.text_edit) acc :
  Forall (fun i => Snippet.cursor_of i = None) edits ->
  fst (fold_left Snippet.edit_step edits acc) = fst acc.
Proof.
  revert acc. induction edits as [|i is IH]; intros acc H; cbn [fold_left]; [reflexivity|].
  inversion H as [|? ? Hi His]; subst. rewrite IH by exact His.
  cbn [Snippet.edit_step fst]. rewrite Hi. reflexivity.
Qed.

Lemma fold_edit_step_last (pre post : list Snippet.text_edit) e p acc :
  Snippet.cursor_of e = Some p ->
  Forall (fun i => Snippet.cursor_of i = None) post ->
  fst (fold_left Snippet.edit_step (pre ++ e :: post) acc) = Some p.
Proof.
  intros He Hpost. rewrite fold_left_app. cbn [fold_left].
  rewrite fold_edit_step_none by exact Hpost.
  cbn [Snippet.edit_step fst]. rewrite He. reflexivity.
Qed.

Lemma lastIndexOf_none_count (t : string) :
  Snippet.lastIndexOf_char Snippet.nl t = None -> Snippet.countLines t = 0.
Proof.
  induction t as [|a t IH]; cbn [Snippet.lastIndexOf_char Snippet.countLines]; [reflexivity|].
  destruct (Snippet.lastIndexOf_char Snippet.nl t); [discriminate|].
  destruct (Ascii.eqb a Snippet.nl); [discriminate|]. intros _. rewrite IH; reflexivity.
Qed.

(** The position after typing [t] as the code computes it, from
    [countLines] and [lastIndexOf]. *)
Lemma end_after_code (p : Diag.position) (t : string) :
  Snippet.end_after p t =
  Diag.mkPosition (Diag.line p + Z.of_nat (Snippet.countLines t))
    (match Snippet.lastIndexOf_char Snippet.nl t with
     | None => Diag.character p + Z.of_nat (String.length t)
     | Some j => Z.of_nat (String.length t) - Z.of_nat j - 1
     end)%Z.
Proof.
  revert p. induction t as [|a t IH]; intros [l c].
  - cbn. f_equal; lia.
  - cbn [Snippet.end_after Snippet.countLines Snippet.lastIndexOf_char String.length].
    rewrite !IH. cbn [Diag.line Diag.character].
    destruct (Ascii.eqb a Snippet.nl) eqn:Ea;
      destruct (Snippet.lastIndexOf_char Snippet.nl t) as [j|] eqn:El.
    + f_equal; lia.
    + rewrite (lastIndexOf_none_count t El). f_equal; lia.
    + f_equal; lia.
    + rewrite (lastIndexOf_none_count t El). f_equal; lia.
Qed.

(** Extra: the cursor of a snippet edit lands where its first [$0] was.
    When [snippet_cursor] gives a position, the parsed text is a prefix
    without [$0], then [$0], then the rest; the text the edit inserts
    starts with that same prefix; and the position is where the cursor
    ends after typing the prefix from the start of the edit's range. *)
Theorem snippet_cursor_after_prefix (r : Diag.range) (parsed : string) (p : Diag.position) :
  Snippet.snippet_cursor r parsed = Some p ->
  exists prefix rest rest',
    parsed = (prefix ++ "$0" ++ rest')%string /\
    String.index 0 "$0" prefix = None /\
    Snippet.replaceAll "$0" "" parsed = (prefix ++ rest)%string /\
    p = Snippet.end_after (Diag.start r) prefix.
Proof.
  unfold Snippet.snippet_cursor.
  destruct (String.index 0 "$0" parsed) as [i|] eqn:Hi; [|discriminate].
  intros H. injection H as <-.
  assert (Hne : "$0"%string <> ""%string) by discriminate.
  destruct (index_split "$0" parsed i Hne Hi) as [Hlen Hs].
  pose proof (split_fuel_pieces (S (String.length parsed)) "$0" parsed Hne (le_n _)) as Hp.
  unfold Snippet.replaceAll, Diag.split.
  cbn [Diag.split_fuel] in Hp |- *. rewrite Hi in Hp |- *.
  inversion Hp as [|? ? Hhead _]; subst.
  pose proof (split_fuel_nonempty (String.length parsed) "$0"
                (substring (i + String.length "$0")
                   (String.length parsed - (i + String.length "$0")) parsed)) as Hn.
  destruct (Diag.split_fuel (String.length parsed) "$0" _) as [|y ys]; [contradiction|].
  exists (substring 0 i parsed), (String.concat "" (y :: ys)),
    (substring (i + String.length "$0") (String.length parsed - (i + String.length "$0")) parsed).
  split; [exact Hs|]. split; [exact Hhead|]. split; [reflexivity|].
  rewrite end_after_code.
  assert (Hl : String.length (substring 0 i parsed) = i).
  { rewrite substring_length. apply Nat.min_l. cbn [String.length] in Hlen. lia. }
  rewrite Hl. reflexivity.
Qed.

Lemma snippet_cursor_after_prefix_witness :
  exists prefix rest rest',
    Snippet.parse fn_snippet = (prefix ++ "$0" ++ rest')%string /\
    String.index 0 "$0" prefix = None /\
    Snippet.replaceAll "$0" "" (Snippet.parse fn_snippet) = (prefix ++ rest)%string /\
    Diag.mkPosition 4 4 = Snippet.end_after (Diag.start (at_pos 3 4)) prefix.
Proof.
  apply (snippet_cursor_after_prefix (at_pos 3 4) (Snippet.parse fn_snippet) (Diag.mkPosition 4 4)).
  vm_compute. reflexivity.
Defined.

(** Extra: for a text-document edit, [applySnippetWorkspaceEdit] opens
    and jumps to the document unless it is the current one, applies every
    edit in order with the same range and its text parsed and stripped of
    [$0], and then moves the cursor to the position set by the last edit
    whose parsed text has a [$0]. When no edit has one, the cursor is not
    moved. *)
Theorem applySnippetWorkspaceEdit_cursor (current uri : string)
  (edits : list Snippet.text_edit) (rest : list Snippet.document_change) :
  (Forall (fun i => Snippet.cursor_of i = None) edits ->
   Snippet.applySnippetWorkspaceEdit current
     (Some (Snippet.mkWorkspaceEdit (Some (Snippet.TextDocumentEdit uri edits :: rest)))) =
   (if String.eqb current uri then [] else [Snippet.LoadFile uri; Snippet.JumpTo uri]) ++
   [Snippet.ApplyEdit uri (map Snippet.cleaned edits)]) /\
  (forall pre e post p,
   edits = pre ++ e :: post ->
   Snippet.cursor_of e = Some p ->
   Forall (fun i => Snippet.cursor_of i = None) post ->
   Snippet.applySnippetWorkspaceEdit current
     (Some (Snippet.mkWorkspaceEdit (Some (Snippet.TextDocumentEdit uri edits :: rest)))) =
   (if String.eqb current uri then [] else [Snippet.LoadFile uri; Snippet.JumpTo uri]) ++
   [Snippet.ApplyEdit uri (map Snippet.cleaned edits); Snippet.MoveTo p]).
Proof.
  cbn [Snippet.applySnippetWorkspaceEdit Snippet.documentChanges].
  pose proof (fold_edit_step_snd edits (None, [])) as Hsnd.
  split.
  - intros Hnone. pose proof (fold_edit_step_none edits (None, []) Hnone) as Hfst.
    destruct (fold_left Snippet.edit_step edits (None, [])) as [pos ne].
    cbn [fst snd app] in Hsnd, Hfst. subst. rewrite app_nil_r. reflexivity.
  - intros pre e post p -> He Hpost.
    pose proof (fold_edit_step_last pre post e p (None, []) He Hpost) as Hfst.
    destruct (fold_left Snippet.edit_step (pre ++ e :: post) (None, [])) as [pos ne].
    cbn [fst snd app] in Hsnd, Hfst. subst. reflexivity.
Qed.

Lemma applySnippetWorkspaceEdit_cursor_witness :
  Snippet.applySnippetWorkspaceEdit "file:///a.wgsl"
    (Some (Snippet.mkWorkspaceEdit (Some [Snippet.TextDocumentEdit "file:///b.wgsl"
       [Snippet.mkEdit (at_pos 1 2) "x$0"; Snippet.mkEdit (at_pos 3 4) fn_snippet;
        Snippet.mkEdit (at_pos 9 0) "${1:y}"]]))) =
  (if String.eqb "file:///a.wgsl" "file:///b.wgsl" then []
   else [Snippet.LoadFile "file:///b.wgsl"; Snippet.JumpTo "file:///b.wgsl"]) ++
  [Snippet.ApplyEdit "file:///b.wgsl"
     (map Snippet.cleaned [Snippet.mkEdit (at_pos 1 2) "x$0"; Snippet.mkEdit (at_pos 3 4) fn_snippet;
                           Snippet.mkEdit (at_pos 9 0) "${1:y}"]);
   Snippet.MoveTo (Diag.mkPosition 4 4)].
Proof.
  apply (proj2 (applySnippetWorkspaceEdit_cursor "file:///a.wgsl" "file:///b.wgsl"
                  [Snippet.mkEdit (at_pos 1 2) "x$0"; Snippet.mkEdit (at_pos 3 4) fn_snippet;
                   Snippet.mkEdit (at_pos 9 0) "${1:y}"] [])
           [Snippet.mkEdit (at_pos 1 2) "x$0"] (Snippet.mkEdit (at_pos 3 4) fn_snippet)
           [Snippet.mkEdit (at_pos 9 0) "${1:y}"] (Diag.mkPosition 4 4)).
  - reflexivity.
  - vm_compute. reflexivity.
  - constructor; [vm_compute; reflexivity|constructor].
Defined.
